(** * Seek job scraper: the scrape pipeline of [seek_scraper_BS_v3/v4/v7.py]

    A shallow embedding of the pure helpers of [SeekScraper]
    ([extract_job_id], [_convert_to_days], [_is_within_time_limit],
    [categorize_job_type], [job_title_conditional_filter]) and of the
    session loop [scrape_jobs] with its page fetchers, followed by the
    properties of the specification that concern them.

    Conventions.
    - A Python [str] is a [string]; its characters are read as the code
      points U+0000..U+00FF, so [lower], [strip], [split] and the regular
      expression classes are the Python ones on that range.
    - A Python [int] is a [Z]; [None] is [None] of an [option].
    - A Python [float] that holds an age is an exact rational or [+inf]
      (type [pyfloat]); no rounding is modelled.
    - Network and browser effects go through an explicit world: the list of
      the requests made so far, and an oracle that answers each request. *)

From Stdlib Require Import Bool List ZArith QArith Lia Ascii String.
Import ListNotations.

Local Open Scope string_scope.
Local Open Scope Z_scope.

(** ** Python strings *)

Module Py.

Definition len (s : string) : Z := Z.of_nat (String.length s).

(** Code point of a character. *)
Definition code (c : ascii) : Z := Z.of_N (N_of_ascii c).

(** [str.isspace] on one character, which is also the class [\s] of [re]
    on [str] patterns: TAB..CR, FS..US, SPACE, NEL and NBSP. *)
Definition isspace (c : ascii) : bool :=
  let n := code c in
  ((9 <=? n) && (n <=? 13)) || ((28 <=? n) && (n <=? 32))
  || (n =? 133) || (n =? 160).

(** The class [\d] of [re] below U+0100: the ten ASCII digits. *)
Definition isdigit (c : ascii) : bool :=
  let n := code c in (48 <=? n) && (n <=? 57).

(** [str.lower] on one character: A-Z, and the Latin-1 capitals
    U+00C0..U+00DE but the multiplication sign U+00D7. *)
Definition lower_char (c : ascii) : ascii :=
  let n := code c in
  if ((65 <=? n) && (n <=? 90))
     || ((192 <=? n) && (n <=? 222) && negb (n =? 215))
  then ascii_of_N (N_of_ascii c + 32)
  else c.

Fixpoint lower (s : string) : string :=
  match s with
  | EmptyString => EmptyString
  | String c t => String (lower_char c) (lower t)
  end.

(** [sub in s]. *)
Fixpoint contains (sub s : string) : bool :=
  prefix sub s ||
  match s with
  | EmptyString => false
  | String _ t => contains sub t
  end.

Fixpoint drop (n : nat) (s : string) : string :=
  match n, s with
  | O, _ => s
  | S _, EmptyString => EmptyString
  | S k, String _ t => drop k t
  end.

Fixpoint take (n : nat) (s : string) : string :=
  match n, s with
  | O, _ => EmptyString
  | S _, EmptyString => EmptyString
  | S k, String c t => String c (take k t)
  end.

(** A negative index counts from the end and is clamped at 0. *)
Definition adjust_index (i n : Z) : Z :=
  if i <? 0 then Z.max 0 (i + n) else i.

(** [s[start:stop]]; [stop = None] is [s[start:]]. *)
Definition slice (s : string) (start : Z) (stop : option Z) : string :=
  let n := len s in
  let lo := Z.min (adjust_index start n) n in
  let hi := match stop with
            | None => n
            | Some e => Z.min (adjust_index e n) n
            end in
  take (Z.to_nat (hi - lo)) (drop (Z.to_nat lo) s).

(** Lowest position of [sub] in [s], where [s] starts at position [pos] of
    the whole string; [-1] when there is none. *)
Fixpoint find_at (sub s : string) (pos : Z) : Z :=
  if prefix sub s then pos
  else match s with
       | EmptyString => -1
       | String _ t => find_at sub t (pos + 1)
       end.

(** [s.find(sub, start)]. *)
Definition find (sub s : string) (start : Z) : Z :=
  let n := len s in
  let start := adjust_index start n in
  if n - start <? len sub then -1
  else find_at sub (drop (Z.to_nat start) s) start.

(** [s.replace(old, new)] for a non-empty [old]: the occurrences are taken
    from the left and do not overlap.  [skip] counts the characters of the
    occurrence just replaced that are still to be passed over. *)
Fixpoint replace_from (old new s : string) (skip : nat) : string :=
  match s with
  | EmptyString => EmptyString
  | String c t =>
      match skip with
      | S k => replace_from old new t k
      | O =>
          if prefix old s
          then new ++ replace_from old new t (String.length old - 1)
          else String c (replace_from old new t 0)
      end
  end.

Definition replace (old new s : string) : string := replace_from old new s 0.

Fixpoint lstrip (s : string) : string :=
  match s with
  | EmptyString => EmptyString
  | String c t => if isspace c then lstrip t else s
  end.

Fixpoint rstrip (s : string) : string :=
  match s with
  | EmptyString => EmptyString
  | String c t =>
      match rstrip t with
      | EmptyString => if isspace c then EmptyString else String c EmptyString
      | r => String c r
      end
  end.

(** [s.strip()]. *)
Definition strip (s : string) : string := rstrip (lstrip s).

(** [s.split()]: the maximal runs of non-blank characters, in order.
    [cur] is the run being read. *)
Fixpoint split_from (s cur : string) : list string :=
  match s with
  | EmptyString => match cur with EmptyString => [] | _ => [cur] end
  | String c t =>
      if isspace c
      then match cur with
           | EmptyString => split_from t EmptyString
           | _ => cur :: split_from t EmptyString
           end
      else split_from t (cur ++ String c EmptyString)
  end.

Definition split (s : string) : list string := split_from s EmptyString.

(** Truth value of a [str], of an [Optional[str]] and of an
    [Optional[int]]. *)
Definition truthy_str (s : string) : bool :=
  match s with EmptyString => false | _ => true end.

Definition truthy_opt_str (o : option string) : bool :=
  match o with None => false | Some s => truthy_str s end.

Definition truthy_opt_int (o : option Z) : bool :=
  match o with None => false | Some n => negb (n =? 0) end.

End Py.

(** ** [extract_job_id] (identical in v3, v4 and v7) *)

(** [str.find] does not raise, nor does slicing, so the [except] branch of
    the source, which returns ["Job ID not found"], is never entered. *)
Definition extract_job_id (url : string) : string :=
  let start_index := Py.find "/job/" url 0 + 5 in
  let end_index := Py.find "?" url start_index in
  if end_index =? -1 then Py.slice url start_index None
  else Py.slice url start_index (Some end_index).

Definition job_id_not_found : string := "Job ID not found".

(** ** Ages: [_convert_to_days] (identical in v3, v4 and v7) *)

(** The value of a Python [float] that holds an age in days. *)
Inductive pyfloat : Type :=
| Fin (q : Q)
| Inf.

Definition float_ltb (a b : pyfloat) : bool :=
  match a, b with
  | Fin x, Fin y => negb (Qle_bool y x)
  | Fin _, Inf => true
  | Inf, _ => false
  end.

Definition float_leb (a b : pyfloat) : bool :=
  match a, b with
  | Fin x, Fin y => Qle_bool x y
  | _, Inf => true
  | Inf, Fin _ => false
  end.

(** Equality, order and strict order of two ages as numbers. *)
Definition float_eq (a b : pyfloat) : Prop :=
  match a, b with
  | Fin x, Fin y => x == y
  | Inf, Inf => True
  | _, _ => False
  end.

Definition float_le (a b : pyfloat) : Prop :=
  match a, b with
  | Fin x, Fin y => (x <= y)%Q
  | _, Inf => True
  | Inf, Fin _ => False
  end.

Definition float_lt (a b : pyfloat) : Prop :=
  match a, b with
  | Fin x, Fin y => (x < y)%Q
  | Fin _, Inf => True
  | Inf, _ => False
  end.

Definition is_finite (a : pyfloat) : Prop :=
  match a with Fin _ => True | Inf => False end.

(** The longest prefix of characters of a class, and what follows it. *)
Fixpoint span (p : ascii -> bool) (s : string) : string * string :=
  match s with
  | EmptyString => (EmptyString, EmptyString)
  | String c t =>
      if p c then let (a, b) := span p t in (String c a, b)
      else (EmptyString, s)
  end.

Definition is_unit (c : ascii) : bool :=
  Ascii.eqb c "m" || Ascii.eqb c "h" || Ascii.eqb c "d".

(** [re.match(r'(\d+)\s*([mhd])', s)] and its two groups.  Both repetitions
    are greedy, and giving back a digit or a blank cannot help: the
    character given back is neither a blank nor a unit (see
    [re_match_time_spec]). *)
Definition re_match_time (s : string) : option (string * ascii) :=
  let (digits, rest) := span Py.isdigit s in
  match digits with
  | EmptyString => None
  | _ =>
      match snd (span Py.isspace rest) with
      | String u _ => if is_unit u then Some (digits, u) else None
      | EmptyString => None
      end
  end.

(** The number a string of decimal digits denotes, read from the left. *)
Fixpoint int_of_digits (acc : Z) (s : string) : Z :=
  match s with
  | EmptyString => acc
  | String c t => int_of_digits (10 * acc + (Py.code c - 48)) t
  end.

(** [float(value)] for a group matched by [\d+]. *)
Definition float_of_digits (value : string) : Q := inject_Z (int_of_digits 0 value).

(** The test that opens [_convert_to_days]. *)
Definition invalid_posting_time (posting_time : string) : bool :=
  negb (Py.truthy_str posting_time) || Py.contains "not found" posting_time.

(** [posting_time.lower().replace('posted', '').strip()]. *)
Definition cleaned_posted_time (posting_time : string) : string :=
  Py.strip (Py.replace "posted" "" (Py.lower posting_time)).

Definition _convert_to_days (posting_time : string) : pyfloat :=
  if invalid_posting_time posting_time then Inf
  else
    match re_match_time (cleaned_posted_time posting_time) with
    | None => Inf
    | Some (value, unit) =>
        let value := float_of_digits value in
        if Ascii.eqb unit "m" then Fin (value / inject_Z (24 * 60))
        else if Ascii.eqb unit "h" then Fin (value / inject_Z 24)
        else Fin value
    end.

(** ** Documents

    A parsed page, as far as the scraper looks at it: each field is what
    one of the selectors of the source yields on the page. *)

(** A job card of a results page. *)
Record Card : Type := {
  (** text of the first [[data-automation="jobTitle"]] of the card *)
  card_title : option string;
  (** the first [a] of the card, and its [href] when it has one *)
  card_link : option (option string)
}.

(** The element [[data-automation="job-detail-location"]] of a job page. *)
Record LocationContainer : Type := {
  (** text of its first [a[class*="gepq850"]] *)
  container_class_link : option string;
  (** text of its first [a] *)
  container_link : option string;
  container_text : string
}.

Record Soup : Type := {
  (** [select('article[data-automation="normalJob"], [data-automation="jobCard"]')] *)
  job_cards : list Card;
  (** [select_one('[data-automation="page-N"]')], and its [href] if any *)
  page_link : Z -> option (option string);
  (** [select_one('[data-automation="job-detail-title"], .j1ww7nx7')] *)
  title_element : option string;
  (** [select_one('[data-automation="advertiser-name"], .y735df0')] *)
  company_element : option string;
  (** [select_one('[data-automation="jobAdDetails"], .YCeva_0')] *)
  description_element : option string;
  (** [select_one('[data-automation="job-detail-location"]')] *)
  location_container : option LocationContainer;
  (** [select_one('a[href*="/jobs/in-"][class*="gepq850"]')] *)
  location_link : option string;
  (** texts of [select('[data-automation="jobDetailsPage"] span')] *)
  posting_elements : list string
}.

(** ** The world: requests and their outcomes *)

Inductive exn : Type :=
| TimeoutException
| WebDriverException (msg : string)
| ClientError (msg : string).

(** What one attempt to load a URL gives: a response with its status and
    parsed body, or an exception of the transport. *)
Inductive outcome : Type :=
| Loaded (status : Z) (html : Soup)
| Raised (e : exn).

(** The requests made so far, oldest first. *)
Definition World : Type := list string.

(** The site answers a request from the requests made before it and the
    URL requested. *)
Definition Site : Type := World -> string -> outcome.

(** A computation reads and extends the world and returns or raises. *)
Inductive result (A : Type) : Type :=
| Val (a : A)
| Exc (e : exn).

Arguments Val {A} a.
Arguments Exc {A} e.

Definition M (A : Type) : Type := World -> result A * World.

Definition ret {A : Type} (a : A) : M A := fun w => (Val a, w).

Definition raise {A : Type} (e : exn) : M A := fun w => (Exc e, w).

Definition bind {A B : Type} (m : M A) (k : A -> M B) : M B :=
  fun w =>
    match m w with
    | (Val a, w') => k a w'
    | (Exc e, w') => (Exc e, w')
    end.

(** [try: body / except Exception as e: handler]. *)
Definition try_except {A : Type} (body : M A) (handler : exn -> M A) : M A :=
  fun w =>
    match body w with
    | (Val a, w') => (Val a, w')
    | (Exc e, w') => handler e w'
    end.

Notation "x <- m ;; k" := (bind m (fun x => k))
  (at level 61, m at next level, right associativity).

(** One attempt to load [url]. *)
Definition request (site : Site) (url : string) : M outcome :=
  fun w => (Val (site w url), (w ++ [url])%list).

(** [range(n)]. *)
Definition range (n : Z) : list Z := map Z.of_nat (seq 0 (Z.to_nat n)).

Definition base_url : string := "https://www.seek.com.au".

(** [sanitize_text] (v4, v7): encoding with [surrogateescape] and decoding
    again changes only lone surrogates, and a [string] has none. *)
Definition sanitize_text (text : string) : string := text.

(** The scan for the posting time in [extract_job_details]. *)
Definition is_posting_text (text : string) : bool :=
  Py.contains "Posted" text
  && existsb (fun unit => Py.contains unit text) ["ago"; "h"; "d"; "m"].

Fixpoint scan_posting_time (posting_elements : list string) (posting_time : string) : string :=
  match posting_elements with
  | [] => posting_time
  | element :: rest =>
      let text := Py.strip element in
      if is_posting_text text then text else scan_posting_time rest posting_time
  end.

Definition text_or (element : option string) (sentinel : string) : string :=
  match element with
  | Some text => Py.strip text
  | None => sentinel
  end.

Section NextPage.

Variable urljoin : string -> string -> string.

(** [get_next_page_url] (identical in v3, v4 and v7). *)
Definition get_next_page_url (soup : Soup) (current_page : Z) : option string :=
  let next_page_num := current_page + 1 in
  match page_link soup next_page_num with
  | Some (Some href) => Some (urljoin base_url href)
  | _ => None
  end.

End NextPage.

(** How a pass over one card, or over the cards of a page, ends: the loop
    goes on with the list and the counter, or [scrape_jobs] returns. *)
Inductive flow (Job : Type) : Type :=
| Continue (all_jobs_data : list Job) (jobs_scraped : Z)
| Return (jobs : list Job).

Arguments Continue {Job} all_jobs_data jobs_scraped.
Arguments Return {Job} jobs.

(** The variables of the [while True] loop of [scrape_jobs]. *)
Record Session (Job : Type) : Type := {
  all_jobs_data : list Job;
  jobs_scraped : Z;
  current_page : Z;
  current_url : string
}.

Arguments all_jobs_data {Job} s.
Arguments jobs_scraped {Job} s.
Arguments current_page {Job} s.
Arguments current_url {Job} s.

(** What a run of [scrape_jobs] bounded to a number of pages gives: the
    list it returns, or the session as it stands when the bound is hit. *)
Inductive run (Job : Type) : Type :=
| Finished (jobs : list Job)
| Running (session : Session Job).

Arguments Finished {Job} jobs.
Arguments Running {Job} session.

(** The test [limit and counter >= limit] of both limits. *)
Definition limit_reached (limit : option Z) (counter : Z) : bool :=
  Py.truthy_opt_int limit
  && match limit with Some n => counter >=? n | None => false end.

(** ** v3 *)

Module V3.

Definition _is_within_time_limit (posting_time : string) (time_limit : option string) : bool :=
  match time_limit with
  | None => true
  | Some limit =>
      if negb (Py.truthy_str limit) then true
      else
        let job_days := _convert_to_days posting_time in
        let limit_days := _convert_to_days limit in
        float_leb job_days limit_days
  end.

End V3.

(** ** v4 *)

Module V4.

Definition _is_within_time_limit (posting_time : string) (time_limit : option string) : bool :=
  match time_limit with
  | None => true
  | Some limit =>
      if negb (Py.truthy_str limit) then true
      else
        let job_days := _convert_to_days posting_time in
        let limit_days := _convert_to_days limit in
        float_leb job_days limit_days
  end.

Definition job_title_conditional_filter (job_title : string) (job_title_filter : option string) : bool :=
  match job_title_filter with
  | None => true
  | Some flt =>
      if negb (Py.truthy_str flt) then true
      else
        let job_title := Py.lower job_title in
        let search_words := Py.split (Py.lower flt) in
        forallb (fun word => Py.contains word job_title) search_words
  end.

(** The dictionary [job_details] of v4. *)
Record JobDetails : Type := {
  url : string;
  job_id : string;
  job_title : string;
  company : string;
  job_description : string;
  posting_time : string
}.

Section Scraper.

Variable site : Site.
Variable urljoin : string -> string -> string.

(** The [for attempt in range(max_retries)] loop of [fetch_page]. *)
Fixpoint fetch_attempts (url : string) (max_retries : Z) (attempts : list Z) : M (option Soup) :=
  match attempts with
  | [] => ret None
  | attempt :: rest =>
      o <- request site url ;;
      match o with
      | Loaded status html =>
          if status =? 200 then ret (Some html)
          else fetch_attempts url max_retries rest
      | Raised e =>
          if attempt <? max_retries - 1 then fetch_attempts url max_retries rest
          else raise e
      end
  end.

Definition fetch_page (url : string) (max_retries : Z) : M (option Soup) :=
  fetch_attempts url max_retries (range max_retries).

Definition extract_job_details (job_url : string) : M (option JobDetails) :=
  try_except
    (soup <- fetch_page job_url 3 ;;
     match soup with
     | None => ret None
     | Some soup =>
         ret (Some {|
           url := job_url;
           job_id := extract_job_id job_url;
           job_title := sanitize_text (text_or (title_element soup) "Title not found");
           company := sanitize_text (text_or (company_element soup) "Company not found");
           job_description :=
             sanitize_text (text_or (description_element soup) "Requirements not found");
           posting_time := scan_posting_time (posting_elements soup) "Posting time not found"
         |})
     end)
    (fun _ => ret None).

(** The [for detail_attempt in range(3)] loop of [scrape_jobs]. *)
Fixpoint detail_attempts (job_url : string) (attempts : list Z) : M (option JobDetails) :=
  match attempts with
  | [] => ret None
  | _ :: rest =>
      job_details <- extract_job_details job_url ;;
      match job_details with
      | Some d => ret (Some d)
      | None => detail_attempts job_url rest
      end
  end.

Section Run.

Variable num_jobs : option Z.
Variable max_pages : option Z.
Variable posted_time_limit : option string.
Variable job_title_filter : option string.

(** The body of [for card in job_cards]. *)
Definition process_card (card : Card) (all_jobs_data : list JobDetails) (jobs_scraped : Z)
  : M (flow JobDetails) :=
  if limit_reached num_jobs jobs_scraped then ret (Return all_jobs_data)
  else
    try_except
      (match card_title card with
       | None => ret (Continue all_jobs_data jobs_scraped)
       | Some title_text =>
           let job_title := Py.strip title_text in
           if negb (job_title_conditional_filter job_title job_title_filter)
           then ret (Continue all_jobs_data jobs_scraped)
           else
             match card_link card with
             | Some (Some href) =>
                 let job_url := urljoin base_url href in
                 job_details <- detail_attempts job_url (range 3) ;;
                 match job_details with
                 | Some d =>
                     if Py.truthy_opt_str posted_time_limit
                        && negb (_is_within_time_limit (posting_time d) posted_time_limit)
                     then ret (Return all_jobs_data)
                     else ret (Continue (all_jobs_data ++ [d])%list (jobs_scraped + 1))
                 | None => ret (Continue all_jobs_data jobs_scraped)
                 end
             | _ => ret (Continue all_jobs_data jobs_scraped)
             end
       end)
      (fun _ => ret (Continue all_jobs_data jobs_scraped)).

Fixpoint for_cards (cards : list Card) (all_jobs_data : list JobDetails) (jobs_scraped : Z)
  : M (flow JobDetails) :=
  match cards with
  | [] => ret (Continue all_jobs_data jobs_scraped)
  | card :: rest =>
      f <- process_card card all_jobs_data jobs_scraped ;;
      match f with
      | Return jobs => ret (Return jobs)
      | Continue all_jobs_data jobs_scraped => for_cards rest all_jobs_data jobs_scraped
      end
  end.

(** The [while True] loop, for at most [fuel] pages. *)
Fixpoint while_true (fuel : nat) (s : Session JobDetails) : M (run JobDetails) :=
  match fuel with
  | O => ret (Running s)
  | S fuel =>
      soup <- fetch_page (current_url s) 3 ;;
      match soup with
      | None => ret (Finished (all_jobs_data s))
      | Some soup =>
          f <- for_cards (job_cards soup) (all_jobs_data s) (jobs_scraped s) ;;
          match f with
          | Return jobs => ret (Finished jobs)
          | Continue all_jobs_data jobs_scraped =>
              if limit_reached max_pages (current_page s) then ret (Finished all_jobs_data)
              else
                let next_page_url := get_next_page_url urljoin soup (current_page s) in
                if negb (Py.truthy_opt_str next_page_url) then ret (Finished all_jobs_data)
                else
                  while_true fuel
                    {| all_jobs_data := all_jobs_data;
                       jobs_scraped := jobs_scraped;
                       current_page := current_page s + 1;
                       current_url := match next_page_url with Some u => u | None => "" end |}
          end
      end
  end.

Definition scrape_jobs (fuel : nat) (search_url : string) : M (run JobDetails) :=
  try_except
    (while_true fuel
       {| all_jobs_data := []; jobs_scraped := 0; current_page := 1;
          current_url := search_url |})
    (fun _ => ret (Finished [])).

End Run.
End Scraper.
End V4.

(** ** v7 *)

Module V7.

Definition _is_within_time_limit (posting_time : string) (time_limit : option string) : bool :=
  match time_limit with
  | None => true
  | Some limit =>
      if negb (Py.truthy_str limit) then true
      else
        let job_days := _convert_to_days posting_time in
        let limit_days := _convert_to_days limit in
        float_ltb job_days limit_days
  end.

(** [categorize_job_type], the chain of tests as written. *)
Definition categorize_job_type (job_title : string) : string :=
  let job_title_lower := Py.lower job_title in
  if Py.contains "data analyst" job_title_lower then "Data Analyst"
  else if Py.contains "data engineer" job_title_lower then "Data Engineer"
  else if Py.contains "engineer" job_title_lower then "Data Engineer"
  else if Py.contains "business analyst" job_title_lower then "Business Analyst"
  else if Py.contains "analytics analyst" job_title_lower then "Analytcis Engineer"
  else if Py.contains "data scientist" job_title_lower then "Data Scientist"
  else if Py.contains "report developer" job_title_lower then "Report Developer"
  else if Py.contains "solutions architect" job_title_lower then "Solutions Architect"
  else "unknown".

Definition extract_location (soup : Soup) : string :=
  match location_container soup with
  | Some container =>
      match container_class_link container with
      | Some text => sanitize_text (Py.strip text)
      | None =>
          match container_link container with
          | Some text => sanitize_text (Py.strip text)
          | None => sanitize_text (Py.strip (container_text container))
          end
      end
  | None =>
      match location_link soup with
      | Some text => sanitize_text (Py.strip text)
      | None => "Location not found"
      end
  end.

(** The dictionary [job_details] of v7. *)
Record JobDetails : Type := {
  url : string;
  job_id : string;
  job_title : string;
  job_location : string;
  company : string;
  job_description : string;
  posting_time : string;
  job_type : string
}.

Section Scraper.

Variable site : Site.
Variable urljoin : string -> string -> string.
Variable use_selenium : bool.

(** The [for attempt in range(max_retries)] loop of [_fetch_with_selenium]:
    every exception of an attempt is caught, and the next attempt follows.
    Quitting and setting up the driver again after a fatal fault is taken
    to succeed; it changes neither the result nor the requests. *)
Fixpoint selenium_attempts (url : string) (max_retries : Z) (attempts : list Z) : M (option Soup) :=
  match attempts with
  | [] => ret None
  | attempt :: rest =>
      o <- request site url ;;
      match o with
      | Loaded _ html => ret (Some html)
      | Raised _ => selenium_attempts url max_retries rest
      end
  end.

Definition _fetch_with_selenium (url : string) (max_retries : Z) : M (option Soup) :=
  selenium_attempts url max_retries (range max_retries).

(** The [for attempt in range(max_retries)] loop of [_fetch_with_aiohttp]. *)
Fixpoint aiohttp_attempts (url : string) (max_retries : Z) (attempts : list Z) : M (option Soup) :=
  match attempts with
  | [] => ret None
  | attempt :: rest =>
      o <- request site url ;;
      match o with
      | Loaded status html =>
          if status =? 200 then ret (Some html)
          else if status =? 403 then aiohttp_attempts url max_retries rest
          else aiohttp_attempts url max_retries rest
      | Raised e =>
          if attempt <? max_retries - 1 then aiohttp_attempts url max_retries rest
          else raise e
      end
  end.

Definition _fetch_with_aiohttp (url : string) (max_retries : Z) : M (option Soup) :=
  aiohttp_attempts url max_retries (range max_retries).

Definition fetch_page (url : string) (max_retries : Z) : M (option Soup) :=
  if use_selenium then _fetch_with_selenium url max_retries
  else _fetch_with_aiohttp url max_retries.

Definition extract_job_details (job_url : string) : M (option JobDetails) :=
  try_except
    (soup <- fetch_page job_url 3 ;;
     match soup with
     | None => ret None
     | Some soup =>
         let title := sanitize_text (text_or (title_element soup) "Title not found") in
         ret (Some {|
           url := job_url;
           job_id := extract_job_id job_url;
           job_title := title;
           job_location := extract_location soup;
           company := sanitize_text (text_or (company_element soup) "Company not found");
           job_description :=
             sanitize_text (text_or (description_element soup) "Description not found");
           posting_time := scan_posting_time (posting_elements soup) "Posting time not found";
           job_type := categorize_job_type title
         |})
     end)
    (fun _ => ret None).

(** The [for detail_attempt in range(3)] loop of [scrape_jobs]. *)
Fixpoint detail_attempts (job_url : string) (attempts : list Z) : M (option JobDetails) :=
  match attempts with
  | [] => ret None
  | _ :: rest =>
      job_details <- extract_job_details job_url ;;
      match job_details with
      | Some d => ret (Some d)
      | None => detail_attempts job_url rest
      end
  end.

Section Run.

Variable num_jobs : option Z.
Variable max_pages : option Z.
Variable posted_time_limit : option string.

(** The body of [for card in job_cards]. *)
Definition process_card (card : Card) (all_jobs_data : list JobDetails) (jobs_scraped : Z)
  : M (flow JobDetails) :=
  if limit_reached num_jobs jobs_scraped then ret (Return all_jobs_data)
  else
    try_except
      (match card_link card with
       | Some (Some href) =>
           let job_url := urljoin base_url href in
           job_details <- detail_attempts job_url (range 3) ;;
           match job_details with
           | Some d =>
               if Py.truthy_opt_str posted_time_limit
                  && negb (_is_within_time_limit (posting_time d) posted_time_limit)
               then ret (Return all_jobs_data)
               else ret (Continue (all_jobs_data ++ [d])%list (jobs_scraped + 1))
           | None => ret (Continue all_jobs_data jobs_scraped)
           end
       | _ => ret (Continue all_jobs_data jobs_scraped)
       end)
      (fun _ => ret (Continue all_jobs_data jobs_scraped)).

Fixpoint for_cards (cards : list Card) (all_jobs_data : list JobDetails) (jobs_scraped : Z)
  : M (flow JobDetails) :=
  match cards with
  | [] => ret (Continue all_jobs_data jobs_scraped)
  | card :: rest =>
      f <- process_card card all_jobs_data jobs_scraped ;;
      match f with
      | Return jobs => ret (Return jobs)
      | Continue all_jobs_data jobs_scraped => for_cards rest all_jobs_data jobs_scraped
      end
  end.

(** The [while True] loop, for at most [fuel] pages. *)
Fixpoint while_true (fuel : nat) (s : Session JobDetails) : M (run JobDetails) :=
  match fuel with
  | O => ret (Running s)
  | S fuel =>
      soup <- fetch_page (current_url s) 3 ;;
      match soup with
      | None => ret (Finished (all_jobs_data s))
      | Some soup =>
          f <- for_cards (job_cards soup) (all_jobs_data s) (jobs_scraped s) ;;
          match f with
          | Return jobs => ret (Finished jobs)
          | Continue all_jobs_data jobs_scraped =>
              if limit_reached max_pages (current_page s) then ret (Finished all_jobs_data)
              else
                let next_page_url := get_next_page_url urljoin soup (current_page s) in
                if negb (Py.truthy_opt_str next_page_url) then ret (Finished all_jobs_data)
                else
                  while_true fuel
                    {| all_jobs_data := all_jobs_data;
                       jobs_scraped := jobs_scraped;
                       current_page := current_page s + 1;
                       current_url := match next_page_url with Some u => u | None => "" end |}
          end
      end
  end.

Definition scrape_jobs (fuel : nat) (search_url : string) : M (run JobDetails) :=
  try_except
    (while_true fuel
       {| all_jobs_data := []; jobs_scraped := 0; current_page := 1;
          current_url := search_url |})
    (fun _ => ret (Finished [])).

End Run.
End Scraper.
End V7.

(** ** The classifier as a rule table

    The classifier as the specification words it: an ordered table of
    keyword and category, the first rule whose keyword occurs in the
    lower-cased title wins, and ["unknown"] when none does. *)
Definition rule_table : list (string * string) :=
  [ ("data analyst", "Data Analyst");
    ("data engineer", "Data Engineer");
    ("engineer", "Data Engineer");
    ("business analyst", "Business Analyst");
    ("analytics analyst", "Analytcis Engineer");
    ("data scientist", "Data Scientist");
    ("report developer", "Report Developer");
    ("solutions architect", "Solutions Architect") ].

Fixpoint first_match (rules : list (string * string)) (lowered : string) : string :=
  match rules with
  | [] => "unknown"
  | (keyword, category) :: rest =>
      if Py.contains keyword lowered then category else first_match rest lowered
  end.

Definition classify (title : string) : string := first_match rule_table (Py.lower title).

(** ** Vocabulary of the statements *)

Fixpoint all_chars (p : ascii -> bool) (s : string) : bool :=
  match s with
  | EmptyString => true
  | String c t => p c && all_chars p t
  end.

(** The first character of a string, if any, is not of the class. *)
Definition stops (p : ascii -> bool) (s : string) : Prop :=
  match s with
  | EmptyString => True
  | String c _ => p c = false
  end.

(** A string that starts with an integer, then blanks if any, then one of
    the unit codes [m], [h], [d]: what the pattern
    [(\d+)\s*([mhd])] accepts at the start of a string. *)
Definition time_format (s : string) : Prop :=
  exists digits blanks unit rest,
    s = digits ++ blanks ++ String unit rest
    /\ digits <> ""
    /\ all_chars Py.isdigit digits = true
    /\ all_chars Py.isspace blanks = true
    /\ is_unit unit = true.


(** The list a run returned, if it returned. *)
Definition returned {Job : Type} (r : result (run Job) * World) : option (list Job) :=
  match fst r with
  | Val (Finished jobs) => Some jobs
  | _ => None
  end.

(** The requests made by the end of a run. *)
Definition requests {A : Type} (r : result A * World) : World := snd r.

(** The session [scrape_jobs] starts with. *)
Definition initial_session {Job : Type} (search_url : string) : Session Job :=
  {| all_jobs_data := []; jobs_scraped := 0; current_page := 1;
     current_url := search_url |}.

Section Passes.

Variable site : Site.
Variable urljoin : string -> string -> string.
Variable use_selenium : bool.
Variable num_jobs : option Z.
Variable max_pages : option Z.
Variable posted_time_limit : option string.

(** One pass of the [while True] loop of v7 that goes through a whole page
    and on to the next one: the session and the world after it. *)
Definition page_pass (s : Session V7.JobDetails) (w : World)
  : option (Session V7.JobDetails * World) :=
  match V7.fetch_page site use_selenium (current_url s) 3 w with
  | (Val (Some soup), w1) =>
      match V7.for_cards site urljoin use_selenium num_jobs posted_time_limit
              (job_cards soup) (all_jobs_data s) (jobs_scraped s) w1 with
      | (Val (Continue a j), w2) =>
          if limit_reached max_pages (current_page s) then None
          else
            match get_next_page_url urljoin soup (current_page s) with
            | Some u =>
                if Py.truthy_str u
                then Some ({| all_jobs_data := a; jobs_scraped := j;
                              current_page := current_page s + 1;
                              current_url := u |}, w2)
                else None
            | None => None
            end
      | _ => None
      end
  | _ => None
  end.

(** The session and the world after [k] such passes. *)
Fixpoint after_pages (k : nat) (s : Session V7.JobDetails) (w : World)
  : option (Session V7.JobDetails * World) :=
  match k with
  | O => Some (s, w)
  | S k =>
      match page_pass s w with
      | Some (s', w') => after_pages k s' w'
      | None => None
      end
  end.

End Passes.

(** ** Sample sites *)

Module Sample.

(** [urljoin] of a base without a path and an absolute path. *)
Definition urljoin (base href : string) : string := base ++ href.

Definition blank_page : Soup :=
  {| job_cards := [];
     page_link := fun _ => None;
     title_element := None;
     company_element := None;
     description_element := None;
     location_container := None;
     location_link := None;
     posting_elements := [] |}.

(** A results page with its cards and, if any, the link to page [next]. *)
Definition results_page (cards : list Card) (next : option (Z * string)) : Soup :=
  {| job_cards := cards;
     page_link := fun n =>
       match next with
       | Some (k, href) => if n =? k then Some (Some href) else None
       | None => None
       end;
     title_element := None;
     company_element := None;
     description_element := None;
     location_container := None;
     location_link := None;
     posting_elements := [] |}.

Definition job_page (title posted : string) : Soup :=
  {| job_cards := [];
     page_link := fun _ => None;
     title_element := Some title;
     company_element := Some "Acme Pty Ltd";
     description_element := None;
     location_container := None;
     location_link := Some "Sydney NSW";
     posting_elements := ["Full time"; posted] |}.

Definition card (title href : string) : Card :=
  {| card_title := Some title; card_link := Some (Some href) |}.

Fixpoint lookup (pages : list (string * outcome)) (url : string) : outcome :=
  match pages with
  | [] => Loaded 404 blank_page
  | (u, o) :: rest => if String.eqb u url then o else lookup rest url
  end.

(** A site that answers every request for a URL in the same way. *)
Definition static (pages : list (string * outcome)) : Site := fun _ url => lookup pages url.

Definition search_url : string := "https://www.seek.com.au/data-jobs".

(** Five cards on the only page. *)
Definition five_cards : Site :=
  static
    [ (search_url,
       Loaded 200 (results_page
         [ card "Data Analyst" "/job/1?ref=search";
           card "Data Engineer" "/job/2?ref=search";
           card "Business Analyst" "/job/3?ref=search";
           card "Data Scientist" "/job/4?ref=search";
           card "Report Developer" "/job/5?ref=search" ] None));
      ("https://www.seek.com.au/job/1?ref=search", Loaded 200 (job_page "Data Analyst" "Posted 1h ago"));
      ("https://www.seek.com.au/job/2?ref=search", Loaded 200 (job_page "Data Engineer" "Posted 2h ago"));
      ("https://www.seek.com.au/job/3?ref=search", Loaded 200 (job_page "Business Analyst" "Posted 3h ago"));
      ("https://www.seek.com.au/job/4?ref=search", Loaded 200 (job_page "Data Scientist" "Posted 4h ago"));
      ("https://www.seek.com.au/job/5?ref=search", Loaded 200 (job_page "Report Developer" "Posted 5h ago")) ].

(** Two recent jobs, then one posted two days ago, then a recent one, and
    a second page. *)
Definition stale_third : Site :=
  static
    [ (search_url,
       Loaded 200 (results_page
         [ card "Data Analyst" "/job/1?ref=search";
           card "Data Engineer" "/job/2?ref=search";
           card "Business Analyst" "/job/3?ref=search";
           card "Data Scientist" "/job/4?ref=search" ]
         (Some (2, "/data-jobs?page=2"))));
      ("https://www.seek.com.au/job/1?ref=search", Loaded 200 (job_page "Data Analyst" "Posted 3h ago"));
      ("https://www.seek.com.au/job/2?ref=search", Loaded 200 (job_page "Data Engineer" "Posted 3h ago"));
      ("https://www.seek.com.au/job/3?ref=search", Loaded 200 (job_page "Business Analyst" "Posted 2d ago"));
      ("https://www.seek.com.au/job/4?ref=search", Loaded 200 (job_page "Data Scientist" "Posted 1h ago"));
      ("https://www.seek.com.au/data-jobs?page=2",
       Loaded 200 (results_page [ card "Report Developer" "/job/5?ref=search" ] None));
      ("https://www.seek.com.au/job/5?ref=search", Loaded 200 (job_page "Report Developer" "Posted 1h ago")) ].


(** One job on page 1, and a page 2 that cannot be loaded: every attempt
    raises. *)
Definition second_page_down : Site :=
  static
    [ (search_url,
       Loaded 200 (results_page [ card "Data Analyst" "/job/1?ref=search" ]
                     (Some (2, "/data-jobs?page=2"))));
      ("https://www.seek.com.au/job/1?ref=search", Loaded 200 (job_page "Data Analyst" "Posted 1h ago"));
      ("https://www.seek.com.au/data-jobs?page=2", Raised (ClientError "Server disconnected")) ].

(** The same, with a page 2 that answers 503 to every attempt. *)
Definition second_page_503 : Site :=
  static
    [ (search_url,
       Loaded 200 (results_page [ card "Data Analyst" "/job/1?ref=search" ]
                     (Some (2, "/data-jobs?page=2"))));
      ("https://www.seek.com.au/job/1?ref=search", Loaded 200 (job_page "Data Analyst" "Posted 1h ago"));
      ("https://www.seek.com.au/data-jobs?page=2", Loaded 503 blank_page) ].

End Sample.

(** ** Vocabulary of the further properties *)

(** What a record of v7 made from the page at [job_url] is sure to
    satisfy: it has that URL, the id read from it, and the type read from
    its title. *)
Definition record_from (job_url : string) (d : V7.JobDetails) : Prop :=
  V7.url d = job_url
  /\ V7.job_id d = extract_job_id job_url
  /\ V7.job_type d = V7.categorize_job_type (V7.job_title d).

(** A site that answers every request with a page that has no card and a
    link to every next page. *)
Definition endless (site : Site) (urljoin : string -> string -> string) : Prop :=
  forall w url,
    exists soup,
      site w url = Loaded 200 soup
      /\ job_cards soup = []
      /\ forall n, exists href,
           page_link soup n = Some (Some href)
           /\ Py.truthy_str (urljoin base_url href) = true.


(** A sample of an endless site. *)
Definition endless_site : Site :=
  fun _ _ =>
    Loaded 200
      {| job_cards := [];
         page_link := fun _ => Some (Some "/data-jobs?page=next");
         title_element := None;
         company_element := None;
         description_element := None;
         location_container := None;
         location_link := None;
         posting_elements := [] |}.


(** A record of v4 and a record of v7 for the same job: the fields v4 has
    and v7 fills in the same way. *)
Definition same_job (d4 : V4.JobDetails) (d7 : V7.JobDetails) : Prop :=
  V4.url d4 = V7.url d7
  /\ V4.job_id d4 = V7.job_id d7
  /\ V4.job_title d4 = V7.job_title d7
  /\ V4.company d4 = V7.company d7
  /\ V4.posting_time d4 = V7.posting_time d7.

(** Every card of every page the site serves has a title element. *)
Definition titled (site : Site) : Prop :=
  forall w url status soup,
    site w url = Loaded status soup ->
    Forall (fun card => card_title card <> None) (job_cards soup).

(** * Properties *)

(** ** Facts on strings *)

Lemma app_assoc_str (a b c : string) : (a ++ b) ++ c = a ++ (b ++ c).
Proof. induction a as [|x a IH]; simpl; [reflexivity | now rewrite IH]. Qed.

Lemma app_nil_r_str (a : string) : a ++ "" = a.
Proof. induction a as [|x a IH]; simpl; [reflexivity | now rewrite IH]. Qed.

Lemma length_app_str (a b : string) :
  String.length (a ++ b) = (String.length a + String.length b)%nat.
Proof. induction a as [|x a IH]; simpl; [reflexivity | now rewrite IH]. Qed.

Lemma len_app (a b : string) : Py.len (a ++ b) = Py.len a + Py.len b.
Proof. unfold Py.len. rewrite length_app_str. lia. Qed.

Lemma len_nonneg (a : string) : 0 <= Py.len a.
Proof. unfold Py.len. lia. Qed.

Lemma drop_app (a b : string) : Py.drop (String.length a) (a ++ b) = b.
Proof. induction a as [|x a IH]; simpl; [now destruct b | exact IH]. Qed.

Lemma take_app (a b : string) : Py.take (String.length a) (a ++ b) = a.
Proof. induction a as [|x a IH]; simpl; [now destruct b | now rewrite IH]. Qed.

Lemma take_all (a : string) : Py.take (String.length a) a = a.
Proof. rewrite <- (app_nil_r_str a) at 2. apply take_app. Qed.

Lemma prefix_refl_app (a b : string) : prefix a (a ++ b) = true.
Proof.
  induction a as [|x a IH]; simpl; [now destruct b|].
  destruct (ascii_dec x x); [exact IH | congruence].
Qed.

(** Whether [sub] starts a string is decided by as many characters as [sub]
    has. *)
Lemma prefix_app_long (sub a b : string) :
  (String.length sub <= String.length a)%nat -> prefix sub (a ++ b) = prefix sub a.
Proof.
  revert a. induction sub as [|x sub IH]; intros a H.
  - destruct a; simpl; [now destruct b | reflexivity].
  - destruct a as [|y a]; simpl in *; [lia|].
    destruct (ascii_dec x y); [apply IH; lia | reflexivity].
Qed.

Lemma contains_cons (sub : string) (c : ascii) (s : string) :
  Py.contains sub (String c s) = prefix sub (String c s) || Py.contains sub s.
Proof. reflexivity. Qed.

Lemma contains_char_app (c : ascii) (a b : string) :
  Py.contains (String c "") (a ++ String c b) = true.
Proof.
  induction a as [|x a IH]; cbn [append]; rewrite contains_cons.
  - cbn [prefix]. destruct (ascii_dec c c); [now destruct b | congruence].
  - rewrite IH. apply orb_true_r.
Qed.

Lemma find_at_absent (sub s : string) (pos : Z) :
  Py.contains sub s = false -> Py.find_at sub s pos = -1.
Proof.
  revert pos. induction s as [|c s IH]; intros pos H.
  - simpl in *. apply orb_false_elim in H. destruct H as [H _]. now rewrite H.
  - rewrite contains_cons in H. apply orb_false_elim in H. destruct H as [H1 H2].
    cbn [Py.find_at]. rewrite H1. now apply IH.
Qed.

(** The first occurrence: when [sub] does not start within [pre], it is
    found right after [pre]. *)
Lemma find_at_first (sub pre tail : string) (pos : Z) :
  (forall a b, pre = a ++ b -> b <> "" -> prefix sub (b ++ sub ++ tail) = false) ->
  Py.find_at sub (pre ++ sub ++ tail) pos = pos + Py.len pre.
Proof.
  revert pos. induction pre as [|c pre IH]; intros pos H.
  - cbn [append]. unfold Py.len. simpl String.length.
    assert (E : prefix sub (sub ++ tail) = true) by apply prefix_refl_app.
    destruct (sub ++ tail); simpl in *; rewrite E; lia.
  - cbn [append Py.find_at].
    assert (E : prefix sub (String c pre ++ sub ++ tail) = false)
      by (apply (H "" (String c pre)); [reflexivity | discriminate]).
    cbn [append] in E. rewrite E. rewrite IH.
    + unfold Py.len. simpl String.length. lia.
    + intros a b Eab Hb. apply (H (String c a) b); [now rewrite Eab | exact Hb].
Qed.

Lemma find_from_zero (sub s : string) :
  Py.len sub <= Py.len s -> Py.find sub s 0 = Py.find_at sub s 0.
Proof.
  intros H. unfold Py.find, Py.adjust_index. simpl.
  destruct (Py.len s - 0 <? Py.len sub) eqn:E; [lia | reflexivity].
Qed.

(** ** [extract_job_id] *)

(** No ["/job/"] starts within [pre] when there is none in [pre ++ "/job"]. *)
Lemma job_marker_first (pre tail : string) :
  Py.contains "/job/" (pre ++ "/job") = false ->
  forall a b, pre = a ++ b -> b <> "" -> prefix "/job/" (b ++ "/job/" ++ tail) = false.
Proof.
  intros H a b E Hb. subst pre.
  assert (G : forall a, Py.contains "/job/" (a ++ b ++ "/job") = false ->
                        prefix "/job/" (b ++ "/job") = false).
  { clear - Hb. intros a. induction a as [|x a IH]; intros H.
    - cbn [append] in H. destruct b as [|y b]; [congruence|].
      cbn [append] in H. rewrite contains_cons in H.
      now apply orb_false_elim in H.
    - cbn [append] in H. rewrite contains_cons in H.
      apply orb_false_elim in H. now apply IH. }
  rewrite app_assoc_str in H. specialize (G a H).
  change (b ++ "/job/" ++ tail) with (b ++ ("/job" ++ ("/" ++ tail))).
  rewrite <- app_assoc_str. rewrite prefix_app_long; [exact G|].
  rewrite length_app_str. destruct b; [congruence | simpl; lia].
Qed.

(** The id segment is returned when a ['?'] ends it. *)
Lemma extract_job_id_query (pre id rest : string) :
  Py.contains "/job/" (pre ++ "/job") = false ->
  Py.contains "?" id = false ->
  extract_job_id (pre ++ "/job/" ++ id ++ "?" ++ rest) = id.
Proof.
  intros Hpre Hid. unfold extract_job_id.
  set (url := pre ++ "/job/" ++ id ++ "?" ++ rest).
  assert (Hlen : Py.len url = Py.len pre + 5 + Py.len id + 1 + Py.len rest).
  { unfold url. rewrite !len_app.
    change (Py.len "/job/") with 5. change (Py.len "?") with 1. lia. }
  pose proof (len_nonneg pre) as P0. pose proof (len_nonneg id) as P1.
  pose proof (len_nonneg rest) as P2.
  assert (Hstart : Py.find "/job/" url 0 = Py.len pre).
  { rewrite find_from_zero by (rewrite Hlen; change (Py.len "/job/") with 5; lia).
    unfold url. rewrite find_at_first; [lia|]. now apply job_marker_first. }
  rewrite Hstart.
  assert (Hdrop : Py.drop (Z.to_nat (Py.len pre + 5)) url = id ++ "?" ++ rest).
  { replace (Z.to_nat (Py.len pre + 5)) with (String.length (pre ++ "/job/")).
    - unfold url. change (pre ++ "/job/" ++ id ++ "?" ++ rest)
        with (pre ++ ("/job/" ++ (id ++ "?" ++ rest))).
      rewrite <- app_assoc_str. apply drop_app.
    - rewrite length_app_str. unfold Py.len. simpl String.length. lia. }
  assert (Hend : Py.find "?" url (Py.len pre + 5) = Py.len pre + 5 + Py.len id).
  { unfold Py.find, Py.adjust_index.
    destruct (Py.len pre + 5 <? 0) eqn:E1; [lia|].
    destruct (Py.len url - (Py.len pre + 5) <? Py.len "?") eqn:E2.
    { change (Py.len "?") with 1 in E2. lia. }
    rewrite Hdrop. apply find_at_first.
    intros a b E Hb. subst id.
    destruct b as [|y b]; [congruence|]. cbn [append prefix].
    destruct (ascii_dec "?" y) as [<-|]; [|reflexivity].
    rewrite contains_char_app in Hid. discriminate. }
  rewrite Hend.
  destruct (Py.len pre + 5 + Py.len id =? -1) eqn:E; [lia|].
  unfold Py.slice, Py.adjust_index.
  destruct (Py.len pre + 5 <? 0) eqn:E1; [lia|].
  destruct (Py.len pre + 5 + Py.len id <? 0) eqn:E2; [lia|].
  rewrite !Z.min_l by lia. rewrite Hdrop.
  replace (Z.to_nat (Py.len pre + 5 + Py.len id - (Py.len pre + 5)))
    with (String.length id) by (unfold Py.len; lia).
  apply take_app.
Qed.

(** The id segment is returned when it runs to the end of the URL. *)
Lemma extract_job_id_to_end (pre id : string) :
  Py.contains "/job/" (pre ++ "/job") = false ->
  Py.contains "?" id = false ->
  extract_job_id (pre ++ "/job/" ++ id) = id.
Proof.
  intros Hpre Hid. unfold extract_job_id.
  set (url := pre ++ "/job/" ++ id).
  assert (Hlen : Py.len url = Py.len pre + 5 + Py.len id).
  { unfold url. rewrite !len_app. change (Py.len "/job/") with 5. lia. }
  pose proof (len_nonneg pre) as P0. pose proof (len_nonneg id) as P1.
  assert (Hstart : Py.find "/job/" url 0 = Py.len pre).
  { rewrite find_from_zero by (rewrite Hlen; change (Py.len "/job/") with 5; lia).
    unfold url. rewrite <- (app_nil_r_str id) at 1.
    change (pre ++ "/job/" ++ id ++ "") with (pre ++ "/job/" ++ (id ++ "")).
    rewrite find_at_first; [lia|]. now apply job_marker_first. }
  rewrite Hstart.
  assert (Hdrop : Py.drop (Z.to_nat (Py.len pre + 5)) url = id).
  { replace (Z.to_nat (Py.len pre + 5)) with (String.length (pre ++ "/job/")).
    - unfold url. change (pre ++ "/job/" ++ id) with (pre ++ ("/job/" ++ id)).
      rewrite <- app_assoc_str. apply drop_app.
    - rewrite length_app_str. unfold Py.len. simpl String.length. lia. }
  assert (Hend : Py.find "?" url (Py.len pre + 5) = -1).
  { unfold Py.find, Py.adjust_index.
    destruct (Py.len pre + 5 <? 0) eqn:E1; [lia|].
    destruct (Py.len url - (Py.len pre + 5) <? Py.len "?"); [reflexivity|].
    rewrite Hdrop. now apply find_at_absent. }
  rewrite Hend. simpl (-1 =? -1).
  unfold Py.slice, Py.adjust_index.
  destruct (Py.len pre + 5 <? 0) eqn:E1; [lia|].
  rewrite !Z.min_l by lia. rewrite Hdrop.
  replace (Z.to_nat (Py.len url - (Py.len pre + 5))) with (String.length id)
    by (rewrite Hlen; unfold Py.len; lia).
  apply take_all.
Qed.

(** Without ["/job/"] the search gives [-1], the slice starts at [4], and
    what follows the first four characters is returned. *)
Lemma extract_job_id_absent (url : string) :
  Py.contains "/job/" url = false ->
  extract_job_id url =
    if Py.find "?" url 4 =? -1 then Py.slice url 4 None
    else Py.slice url 4 (Some (Py.find "?" url 4)).
Proof.
  intros H. unfold extract_job_id.
  assert (E : Py.find "/job/" url 0 = -1).
  { unfold Py.find. destruct (_ <? _); [reflexivity|].
    unfold Py.adjust_index. simpl. now apply find_at_absent. }
  now rewrite E.
Qed.

(** C1.  A URL with no ["/job/"] in it does not give the sentinel
    ["Job ID not found"]: on the results URL
    ["https://www.seek.com.au/jobs?page=2"] the function returns
    ["s://www.seek.com.au/jobs"], the characters from position 4 to the
    ['?'].  (With ["/job/"] in the URL the id segment is returned, see
    [extract_job_id_query] and [extract_job_id_to_end].) *)
Theorem extract_job_id_without_job_segment :
  Py.contains "/job/" "https://www.seek.com.au/jobs?page=2" = false /\
  extract_job_id "https://www.seek.com.au/jobs?page=2" = "s://www.seek.com.au/jobs" /\
  extract_job_id "https://www.seek.com.au/jobs?page=2" <> job_id_not_found.
Proof. repeat split; try reflexivity. discriminate. Qed.

(** ** Facts on characters and on the pattern of posting times *)


Lemma space_not_digit (c : ascii) : Py.isspace c = true -> Py.isdigit c = false.
Proof. destruct c as [[] [] [] [] [] [] [] []]; intros H; (reflexivity || discriminate H). Qed.

Lemma unit_cases (u : ascii) :
  is_unit u = true -> u = "m"%char \/ u = "h"%char \/ u = "d"%char.
Proof.
  unfold is_unit. intros H.
  apply orb_true_iff in H. destruct H as [H | H].
  - apply orb_true_iff in H. destruct H as [H | H]; apply Ascii.eqb_eq in H; auto.
  - apply Ascii.eqb_eq in H. auto.
Qed.

Lemma unit_not_digit (u : ascii) : is_unit u = true -> Py.isdigit u = false.
Proof. intros H. destruct (unit_cases u H) as [-> | [-> | ->]]; reflexivity. Qed.

Lemma unit_not_space (u : ascii) : is_unit u = true -> Py.isspace u = false.
Proof. intros H. destruct (unit_cases u H) as [-> | [-> | ->]]; reflexivity. Qed.

Lemma span_spec (p : ascii -> bool) (s a b : string) :
  span p s = (a, b) -> s = a ++ b /\ all_chars p a = true /\ stops p b.
Proof.
  revert a b. induction s as [|c s IH]; intros a b H; simpl in H.
  - inversion H. simpl. auto.
  - destruct (p c) eqn:E.
    + destruct (span p s) as [a' b'] eqn:Es. inversion H; subst.
      destruct (IH a' b eq_refl) as (-> & Ha & Hb).
      simpl. rewrite E, Ha. auto.
    + inversion H; subst. simpl. rewrite E. auto.
Qed.

Lemma span_app (p : ascii -> bool) (a b : string) :
  all_chars p a = true -> stops p b -> span p (a ++ b) = (a, b).
Proof.
  induction a as [|c a IH]; intros Ha Hb.
  - destruct b as [|y b]; simpl in *; [reflexivity | now rewrite Hb].
  - simpl in Ha. apply andb_true_iff in Ha. destruct Ha as [Hc Ha].
    simpl. rewrite Hc, (IH Ha Hb). reflexivity.
Qed.

(** The matcher finds a match exactly when the pattern has one, and its
    groups are the only possible ones. *)
Lemma re_match_time_spec (s digits : string) (unit : ascii) :
  re_match_time s = Some (digits, unit) <->
  exists blanks rest,
    s = digits ++ blanks ++ String unit rest
    /\ digits <> ""
    /\ all_chars Py.isdigit digits = true
    /\ all_chars Py.isspace blanks = true
    /\ is_unit unit = true.
Proof.
  unfold re_match_time. split.
  - destruct (span Py.isdigit s) as [dg r] eqn:E1.
    destruct (span_spec _ _ _ _ E1) as (Hs & Hd & _).
    destruct dg as [|c dg]; [discriminate|].
    destruct (span Py.isspace r) as [bl r2] eqn:E2.
    destruct (span_spec _ _ _ _ E2) as (Hr & Hb & _).
    simpl snd. destruct r2 as [|u r2]; [discriminate|].
    destruct (is_unit u) eqn:Eu; [|discriminate].
    intros H. inversion H; subst.
    exists bl, r2. repeat split; auto. discriminate.
  - intros (blanks & rest & -> & Hne & Hd & Hb & Hu).
    assert (Hstop : stops Py.isdigit (blanks ++ String unit rest)).
    { destruct blanks as [|c blanks]; simpl.
      - now apply unit_not_digit.
      - simpl in Hb. apply andb_true_iff in Hb. now apply space_not_digit. }
    rewrite (span_app _ _ _ Hd Hstop).
    destruct digits as [|c digits]; [congruence|].
    rewrite (span_app Py.isspace blanks (String unit rest) Hb (unit_not_space _ Hu)).
    cbn. now rewrite Hu.
Qed.


Lemma time_format_matched (s : string) :
  time_format s -> exists d u, re_match_time s = Some (d, u).
Proof.
  intros (d & blanks & u & rest & H). exists d, u.
  apply re_match_time_spec. now exists blanks, rest.
Qed.

(** ** Facts on ages *)

Lemma float_leb_spec (a b : pyfloat) : float_leb a b = true <-> float_le a b.
Proof.
  destruct a as [x|], b as [y|]; simpl; try tauto.
  - apply Qle_bool_iff.
  - split; [discriminate | tauto].
Qed.

Lemma float_ltb_spec (a b : pyfloat) : float_ltb a b = true <-> float_lt a b.
Proof.
  destruct a as [x|], b as [y|]; simpl; try tauto;
    try (split; [discriminate | tauto]).
  rewrite negb_true_iff. split.
  - intros H. apply Qnot_le_lt. intros G. apply Qle_bool_iff in G. congruence.
  - intros H. destruct (Qle_bool y x) eqn:E; [|reflexivity].
    apply Qle_bool_iff in E. exfalso. exact (Qlt_not_le _ _ H E).
Qed.

(** Away from equal ages, [<=] and [<] decide alike. *)
Lemma float_leb_ltb (a b : pyfloat) : ~ float_eq a b -> float_leb a b = float_ltb a b.
Proof.
  destruct a as [x|], b as [y|]; simpl; intros H; try reflexivity; [|tauto].
  destruct (Qle_bool x y) eqn:E1, (Qle_bool y x) eqn:E2; try reflexivity.
  - apply Qle_bool_iff in E1. apply Qle_bool_iff in E2.
    exfalso. apply H. now apply Qle_antisym.
  - exfalso. destruct (Qlt_le_dec y x) as [G | G].
    + apply Qlt_le_weak in G. apply Qle_bool_iff in G. congruence.
    + apply Qle_bool_iff in G. congruence.
Qed.




(** ** The recency window *)

(** C3.  At the boundary the source files disagree: when the age of the job
    equals the finite age of the limit, [_is_within_time_limit] of v3 and
    of v4 ([<=]) answers true and that of v7 ([<]) answers false; when the
    two ages differ, the three answer alike. *)
Theorem window_boundary_disagreement (posting_time limit : string) :
  (float_eq (_convert_to_days posting_time) (_convert_to_days limit) ->
   is_finite (_convert_to_days limit) ->
   V3._is_within_time_limit posting_time (Some limit) = true
   /\ V4._is_within_time_limit posting_time (Some limit) = true
   /\ V7._is_within_time_limit posting_time (Some limit) = false)
  /\
  (~ float_eq (_convert_to_days posting_time) (_convert_to_days limit) ->
   V3._is_within_time_limit posting_time (Some limit)
   = V4._is_within_time_limit posting_time (Some limit)
   /\ V4._is_within_time_limit posting_time (Some limit)
      = V7._is_within_time_limit posting_time (Some limit)).
Proof.
  unfold V3._is_within_time_limit, V4._is_within_time_limit, V7._is_within_time_limit.
  split.
  - intros Heq Hfin.
    destruct limit as [|c limit]; [exact (False_ind _ Hfin)|].
    cbn [Py.truthy_str negb].
    destruct (_convert_to_days posting_time) as [x|],
             (_convert_to_days (String c limit)) as [y|]; simpl in *; try tauto.
    assert (L1 : Qle_bool x y = true) by (apply Qle_bool_iff; rewrite Heq; apply Qle_refl).
    assert (L2 : Qle_bool y x = true) by (apply Qle_bool_iff; rewrite Heq; apply Qle_refl).
    rewrite L1, L2. auto.
  - intros Hne. destruct limit as [|c limit]; [auto|].
    cbn [Py.truthy_str negb]. split; [reflexivity|]. now apply float_leb_ltb.
Qed.

Lemma window_boundary_disagreement_witness :
  (V3._is_within_time_limit "Posted 24h ago" (Some "1d") = true
   /\ V4._is_within_time_limit "Posted 24h ago" (Some "1d") = true
   /\ V7._is_within_time_limit "Posted 24h ago" (Some "1d") = false)
  /\
  (V3._is_within_time_limit "Posted 3h ago" (Some "1d")
   = V4._is_within_time_limit "Posted 3h ago" (Some "1d")
   /\ V4._is_within_time_limit "Posted 3h ago" (Some "1d")
      = V7._is_within_time_limit "Posted 3h ago" (Some "1d")).
Proof.
  split.
  - apply (proj1 (window_boundary_disagreement "Posted 24h ago" "1d")).
    + reflexivity.
    + exact I.
  - apply (proj2 (window_boundary_disagreement "Posted 3h ago" "1d")).
    simpl. unfold Qeq. simpl. discriminate.
Defined.



(** The three inputs the specification names. *)
Example unreadable_ages :
  _convert_to_days "" = Inf
  /\ _convert_to_days "garbled" = Inf
  /\ _convert_to_days "Posting time not found" = Inf
  /\ ~ time_format (cleaned_posted_time "garbled").
Proof.
  repeat split. intros H. apply time_format_matched in H.
  destruct H as (d & u & H). discriminate H.
Qed.



(** ** The classifier *)

Lemma first_match_app (before after : list (string * string))
      (keyword category lowered : string) :
  (forall r, In r before -> Py.contains (fst r) lowered = false) ->
  Py.contains keyword lowered = true ->
  first_match (before ++ (keyword, category) :: after) lowered = category.
Proof.
  induction before as [|[k c] before IH]; intros Hb Hk; simpl.
  - now rewrite Hk.
  - pose proof (Hb (k, c) (or_introl eq_refl)) as E. simpl in E. rewrite E.
    apply IH; [|exact Hk].
    intros r Hr. apply Hb. now right.
Qed.

Lemma first_match_none (rules : list (string * string)) (lowered : string) :
  (forall r, In r rules -> Py.contains (fst r) lowered = false) ->
  first_match rules lowered = "unknown".
Proof.
  induction rules as [|[k c] rules IH]; intros H; simpl; [reflexivity|].
  pose proof (H (k, c) (or_introl eq_refl)) as E. simpl in E. rewrite E.
  apply IH. intros r Hr. apply H. now right.
Qed.

(** C7.  [categorize_job_type] is the first match of the rule table on the
    lower-cased title: it returns the category of the first rule, in the
    order of the table, whose keyword occurs in it, and ["unknown"] when no
    keyword does.  ["Senior Data Engineer"] has the keywords of the second
    and of the third rule and gets the category of the second. *)
Theorem categorize_job_type_first_match (job_title : string) :
  V7.categorize_job_type job_title = first_match rule_table (Py.lower job_title)
  /\ (forall before keyword category after,
        rule_table = (before ++ (keyword, category) :: after)%list ->
        (forall r, In r before -> Py.contains (fst r) (Py.lower job_title) = false) ->
        Py.contains keyword (Py.lower job_title) = true ->
        V7.categorize_job_type job_title = category)
  /\ ((forall r, In r rule_table -> Py.contains (fst r) (Py.lower job_title) = false) ->
      V7.categorize_job_type job_title = "unknown")
  /\ (Py.contains "data engineer" (Py.lower "Senior Data Engineer") = true
      /\ Py.contains "engineer" (Py.lower "Senior Data Engineer") = true
      /\ nth_error rule_table 1 = Some ("data engineer", "Data Engineer")
      /\ nth_error rule_table 2 = Some ("engineer", "Data Engineer")
      /\ V7.categorize_job_type "Senior Data Engineer" = "Data Engineer").
Proof.
  assert (E : V7.categorize_job_type job_title
              = first_match rule_table (Py.lower job_title)) by reflexivity.
  split; [exact E|]. split; [|split].
  - intros before keyword category after Ht Hb Hk.
    rewrite E, Ht. now apply first_match_app.
  - intros H. rewrite E. now apply first_match_none.
  - repeat split.
Qed.

Lemma categorize_job_type_first_match_witness :
  V7.categorize_job_type "Lead Engineer (Data Scientist team)" = "Data Engineer"
  /\ V7.categorize_job_type "Office Manager" = "unknown".
Proof.
  split.
  - apply (proj1 (proj2 (categorize_job_type_first_match
                           "Lead Engineer (Data Scientist team)"))
             [("data analyst", "Data Analyst"); ("data engineer", "Data Engineer")]
             "engineer" "Data Engineer"
             [("business analyst", "Business Analyst");
              ("analytics analyst", "Analytcis Engineer");
              ("data scientist", "Data Scientist");
              ("report developer", "Report Developer");
              ("solutions architect", "Solutions Architect")]).
    + reflexivity.
    + intros r [<- | [<- | []]]; reflexivity.
    + reflexivity.
  - apply (proj1 (proj2 (proj2 (categorize_job_type_first_match "Office Manager")))).
    intros r Hr. simpl in Hr.
    repeat (destruct Hr as [<- | Hr]; [reflexivity|]). destruct Hr.
Defined.

(** ** The session loop of v7 *)

Section SessionV7.

Variable site : Site.
Variable urljoin : string -> string -> string.
Variable use_selenium : bool.

Lemma limit_reached_zero (counter : Z) :
  limit_reached (Some 0) counter = limit_reached None counter.
Proof. reflexivity. Qed.


(** What [scrape_jobs] makes of the loop: its value, or the empty list when
    it raised. *)
Lemma scrape_jobs_unfold num_jobs max_pages lim fuel search_url w :
  V7.scrape_jobs site urljoin use_selenium num_jobs max_pages lim fuel search_url w =
  match V7.while_true site urljoin use_selenium num_jobs max_pages lim fuel
          (initial_session search_url) w with
  | (Val r, w') => (Val r, w')
  | (Exc _, w') => (Val (Finished []), w')
  end.
Proof. reflexivity. Qed.

Lemma while_true_step num_jobs max_pages lim fuel s w :
  V7.while_true site urljoin use_selenium num_jobs max_pages lim (S fuel) s w =
  match V7.fetch_page site use_selenium (current_url s) 3 w with
  | (Val None, w1) => (Val (Finished (all_jobs_data s)), w1)
  | (Val (Some soup), w1) =>
      match V7.for_cards site urljoin use_selenium num_jobs lim
              (job_cards soup) (all_jobs_data s) (jobs_scraped s) w1 with
      | (Val (Return jobs), w2) => (Val (Finished jobs), w2)
      | (Val (Continue a j), w2) =>
          if limit_reached max_pages (current_page s) then (Val (Finished a), w2)
          else
            match get_next_page_url urljoin soup (current_page s) with
            | Some u =>
                if Py.truthy_str u
                then V7.while_true site urljoin use_selenium num_jobs max_pages lim fuel
                       {| all_jobs_data := a; jobs_scraped := j;
                          current_page := current_page s + 1; current_url := u |} w2
                else (Val (Finished a), w2)
            | None => (Val (Finished a), w2)
            end
      | (Exc e, w2) => (Exc e, w2)
      end
  | (Exc e, w1) => (Exc e, w1)
  end.
Proof.
  cbn [V7.while_true]. unfold bind.
  destruct (V7.fetch_page site use_selenium (current_url s) 3 w) as [[[soup|]|e] w1];
    try reflexivity.
  destruct (V7.for_cards site urljoin use_selenium num_jobs lim (job_cards soup)
              (all_jobs_data s) (jobs_scraped s) w1) as [[[a j|jobs]|e] w2];
    try reflexivity.
  destruct (limit_reached max_pages (current_page s)); [reflexivity|].
  destruct (get_next_page_url urljoin soup (current_page s)) as [u|]; [|reflexivity].
  cbn [Py.truthy_opt_str]. now destruct (Py.truthy_str u).
Qed.

Lemma while_true_after_pages num_jobs max_pages lim k fuel s w s' w' :
  after_pages site urljoin use_selenium num_jobs max_pages lim k s w = Some (s', w') ->
  V7.while_true site urljoin use_selenium num_jobs max_pages lim (k + fuel) s w
  = V7.while_true site urljoin use_selenium num_jobs max_pages lim fuel s' w'.
Proof.
  revert s w. induction k as [|k IH]; intros s w H.
  - simpl in H. now inversion H.
  - cbn [after_pages] in H.
    destruct (page_pass site urljoin use_selenium num_jobs max_pages lim s w)
      as [[s1 w1]|] eqn:E; [|discriminate].
    change (S k + fuel)%nat with (S (k + fuel)). rewrite while_true_step.
    unfold page_pass in E.
    destruct (V7.fetch_page site use_selenium (current_url s) 3 w) as [[[soup|]|e] w2];
      try discriminate.
    destruct (V7.for_cards site urljoin use_selenium num_jobs lim (job_cards soup)
                (all_jobs_data s) (jobs_scraped s) w2) as [[[a j|jobs]|e] w3];
      try discriminate.
    destruct (limit_reached max_pages (current_page s)); [discriminate|].
    destruct (get_next_page_url urljoin soup (current_page s)) as [u|]; [|discriminate].
    destruct (Py.truthy_str u); [|discriminate].
    inversion E; subst. now apply IH.
Qed.

Lemma for_cards_app num_jobs lim before rest a j w a' j' w' :
  V7.for_cards site urljoin use_selenium num_jobs lim before a j w
  = (Val (Continue a' j'), w') ->
  V7.for_cards site urljoin use_selenium num_jobs lim (before ++ rest) a j w
  = V7.for_cards site urljoin use_selenium num_jobs lim rest a' j' w'.
Proof.
  revert a j w. induction before as [|c before IH]; intros a j w H.
  - cbn in H. now inversion H.
  - cbn [V7.for_cards app] in *. unfold bind in *.
    destruct (V7.process_card site urljoin use_selenium num_jobs lim c a j w)
      as [[[a1 j1|jobs]|e] w1]; try discriminate.
    now apply IH.
Qed.

(** *** Transports *)

Lemma selenium_attempts_never_raise url max_retries attempts w :
  exists r w', V7.selenium_attempts site url max_retries attempts w = (Val r, w').
Proof.
  revert w. induction attempts as [|k attempts IH]; intros w.
  - now exists None, w.
  - cbn [V7.selenium_attempts]. unfold bind, request.
    destruct (site w url) as [status html|e].
    + now exists (Some html), (w ++ [url])%list.
    + apply IH.
Qed.

(** With the browser transport a page fetch never raises. *)
Lemma fetch_with_selenium_never_raises url max_retries w :
  exists r w', V7._fetch_with_selenium site url max_retries w = (Val r, w').
Proof. apply selenium_attempts_never_raise. Qed.

(** A page fetch that gives no document ends the session with the list
    accumulated so far. *)
Lemma fetch_none_returns_accumulated num_jobs max_pages lim fuel s w w' :
  V7.fetch_page site use_selenium (current_url s) 3 w = (Val None, w') ->
  V7.while_true site urljoin use_selenium num_jobs max_pages lim (S fuel) s w
  = (Val (Finished (all_jobs_data s)), w').
Proof. intros H. rewrite while_true_step. now rewrite H. Qed.

(** A page fetch that raises, on any page, makes [scrape_jobs] return the
    empty list. *)
Lemma fetch_raise_returns_empty num_jobs max_pages lim k fuel search_url w0 s w e w' :
  after_pages site urljoin use_selenium num_jobs max_pages lim k
    (initial_session search_url) w0 = Some (s, w) ->
  V7.fetch_page site use_selenium (current_url s) 3 w = (Exc e, w') ->
  V7.scrape_jobs site urljoin use_selenium num_jobs max_pages lim (k + S fuel) search_url w0
  = (Val (Finished []), w').
Proof.
  intros Hk H. rewrite scrape_jobs_unfold.
  rewrite (while_true_after_pages _ _ _ _ _ _ _ _ _ Hk).
  rewrite while_true_step. now rewrite H.
Qed.

End SessionV7.

(** *** The limit on the number of jobs *)

Section JobLimit.

Variable site : Site.
Variable urljoin : string -> string -> string.
Variable use_selenium : bool.
Variable n : Z.
Variable max_pages : option Z.
Variable lim : option string.
Hypothesis n_positive : 0 < n.




End JobLimit.



(** *** The recency limit *)

(** C5.  On any page of a session with a recency limit, when the details
    of a card are extracted and the age of the job is beyond the age of the
    limit, [scrape_jobs] returns the list accumulated before that card, and
    the last request of the run is the one that fetched that job: no later
    card and no later page is requested.  With the limit ["1d"], two jobs
    posted three hours ago and a third posted two days ago, the first two
    are returned, and neither the fourth card nor page 2 is requested. *)
Theorem stale_job_ends_session
        (site : Site) (urljoin : string -> string -> string) (use_selenium : bool)
        (num_jobs max_pages : option Z) (limit : string)
        (k fuel : nat) (search_url : string) (w0 : World)
        (s : Session V7.JobDetails) (w w1 w2 w3 : World)
        (soup : Soup) (before after : list Card) (card : Card) (href : string)
        (a : list V7.JobDetails) (j : Z) (d : V7.JobDetails) :
  limit <> "" ->
  after_pages site urljoin use_selenium num_jobs max_pages (Some limit) k
    (initial_session search_url) w0 = Some (s, w) ->
  V7.fetch_page site use_selenium (current_url s) 3 w = (Val (Some soup), w1) ->
  job_cards soup = (before ++ card :: after)%list ->
  V7.for_cards site urljoin use_selenium num_jobs (Some limit) before
    (all_jobs_data s) (jobs_scraped s) w1 = (Val (Continue a j), w2) ->
  limit_reached num_jobs j = false ->
  card_link card = Some (Some href) ->
  V7.detail_attempts site use_selenium (urljoin base_url href) (range 3) w2
  = (Val (Some d), w3) ->
  float_lt (_convert_to_days limit) (_convert_to_days (V7.posting_time d)) ->
  V7.scrape_jobs site urljoin use_selenium num_jobs max_pages (Some limit)
    (k + S fuel) search_url w0 = (Val (Finished a), w3)
  /\
  (let r := V7.scrape_jobs Sample.stale_third Sample.urljoin true None None (Some "1d")
              5 Sample.search_url [] in
   option_map (map V7.job_id) (returned r) = Some ["1"; "2"]
   /\ requests r = [ Sample.search_url;
                     "https://www.seek.com.au/job/1?ref=search";
                     "https://www.seek.com.au/job/2?ref=search";
                     "https://www.seek.com.au/job/3?ref=search" ]).
Proof.
  intros Hlim Hk Hfetch Hcards Hbefore Hnum Hlink Hdetail Hstale.
  split; [|repeat split].
  rewrite scrape_jobs_unfold.
  rewrite (while_true_after_pages _ _ _ _ _ _ _ _ _ _ _ _ Hk).
  rewrite while_true_step, Hfetch, Hcards.
  rewrite (for_cards_app _ _ _ _ _ _ (card :: after) _ _ _ _ _ _ Hbefore).
  cbn [V7.for_cards]. unfold bind at 1.
  assert (E : V7.process_card site urljoin use_selenium num_jobs (Some limit) card a j w2
              = (Val (Return a), w3)).
  { unfold V7.process_card. rewrite Hnum, Hlink.
    unfold try_except, bind. rewrite Hdetail.
    assert (G : Py.truthy_opt_str (Some limit)
                && negb (V7._is_within_time_limit (V7.posting_time d) (Some limit)) = true).
    { unfold V7._is_within_time_limit.
      destruct limit as [|c limit]; [congruence|]. cbn [Py.truthy_opt_str Py.truthy_str negb andb].
      apply negb_true_iff. destruct (float_ltb _ _) eqn:F; [|reflexivity].
      apply float_ltb_spec in F. exfalso.
      destruct (_convert_to_days (V7.posting_time d)) as [x|],
               (_convert_to_days (String c limit)) as [y|]; simpl in *; try tauto.
      exact (Qlt_irrefl _ (Qlt_trans _ _ _ F Hstale)). }
    now rewrite G. }
  now rewrite E.
Qed.

Lemma stale_job_ends_session_witness :
  option_map (map V7.job_id)
    (returned (V7.scrape_jobs Sample.stale_third Sample.urljoin true None None (Some "1d")
                 (0 + 1) Sample.search_url []))
  = Some ["1"; "2"].
Proof.
  erewrite (proj1 (stale_job_ends_session
    Sample.stale_third Sample.urljoin true None None "1d" 0 0 Sample.search_url []
    (initial_session Sample.search_url) [] _ _ _ _
    [ Sample.card "Data Analyst" "/job/1?ref=search";
      Sample.card "Data Engineer" "/job/2?ref=search" ]
    [ Sample.card "Data Scientist" "/job/4?ref=search" ]
    (Sample.card "Business Analyst" "/job/3?ref=search") "/job/3?ref=search"
    _ _ _
    ltac:(discriminate) eq_refl eq_refl eq_refl eq_refl eq_refl eq_refl eq_refl eq_refl)).
  reflexivity.
Defined.

(** *** Limits given as zero *)

(** The two limits are read by [limit_reached] only, which answers false
    for a limit of [0] as it does for [None]. *)
Lemma process_card_num_jobs_zero
      (site : Site) (urljoin : string -> string -> string) (use_selenium : bool)
      (lim : option string) (card : Card) (a : list V7.JobDetails) (j : Z) (w : World) :
  V7.process_card site urljoin use_selenium (Some 0) lim card a j w
  = V7.process_card site urljoin use_selenium None lim card a j w.
Proof. unfold V7.process_card. now rewrite limit_reached_zero. Qed.

Lemma for_cards_num_jobs_zero
      (site : Site) (urljoin : string -> string -> string) (use_selenium : bool)
      (lim : option string) (cards : list Card) (a : list V7.JobDetails) (j : Z) (w : World) :
  V7.for_cards site urljoin use_selenium (Some 0) lim cards a j w
  = V7.for_cards site urljoin use_selenium None lim cards a j w.
Proof.
  revert a j w. induction cards as [|card cards IH]; intros a j w; [reflexivity|].
  cbn [V7.for_cards]. unfold bind. rewrite process_card_num_jobs_zero.
  destruct (V7.process_card site urljoin use_selenium None lim card a j w)
    as [[[a1 j1|jobs]|e] w1]; [apply IH | reflexivity | reflexivity].
Qed.

Lemma while_true_zero
      (site : Site) (urljoin : string -> string -> string) (use_selenium : bool)
      (num_jobs max_pages : option Z) (lim : option string)
      (fuel : nat) (s : Session V7.JobDetails) (w : World) :
  V7.while_true site urljoin use_selenium (Some 0) max_pages lim fuel s w
  = V7.while_true site urljoin use_selenium None max_pages lim fuel s w
  /\ V7.while_true site urljoin use_selenium num_jobs (Some 0) lim fuel s w
     = V7.while_true site urljoin use_selenium num_jobs None lim fuel s w.
Proof.
  revert s w. induction fuel as [|fuel IH]; intros s w; [now split|].
  rewrite !while_true_step.
  destruct (V7.fetch_page site use_selenium (current_url s) 3 w) as [[[soup|]|e] w1];
    [| now split | now split].
  rewrite for_cards_num_jobs_zero. split.
  - destruct (V7.for_cards site urljoin use_selenium None lim (job_cards soup)
                (all_jobs_data s) (jobs_scraped s) w1) as [[[a j|jobs]|e] w2];
      [| reflexivity | reflexivity].
    destruct (limit_reached max_pages (current_page s)); [reflexivity|].
    destruct (get_next_page_url urljoin soup (current_page s)) as [u|]; [|reflexivity].
    destruct (Py.truthy_str u); [apply IH | reflexivity].
  - destruct (V7.for_cards site urljoin use_selenium num_jobs lim (job_cards soup)
                (all_jobs_data s) (jobs_scraped s) w1) as [[[a j|jobs]|e] w2];
      [| reflexivity | reflexivity].
    rewrite limit_reached_zero.
    destruct (limit_reached None (current_page s)); [reflexivity|].
    destruct (get_next_page_url urljoin soup (current_page s)) as [u|]; [|reflexivity].
    destruct (Py.truthy_str u); [apply IH | reflexivity].
Qed.

(** C10.  [num_jobs = 0] and [max_pages = 0] are no limits: a run with
    either is, result and requests, the run with [None] in its place.  On
    the site with five cards, [num_jobs = 0] and [max_pages = 0] together
    give all five records. *)
Theorem zero_limit_is_no_limit
        (site : Site) (urljoin : string -> string -> string) (use_selenium : bool)
        (num_jobs max_pages : option Z) (lim : option string)
        (fuel : nat) (search_url : string) (w : World) :
  V7.scrape_jobs site urljoin use_selenium (Some 0) max_pages lim fuel search_url w
  = V7.scrape_jobs site urljoin use_selenium None max_pages lim fuel search_url w
  /\
  V7.scrape_jobs site urljoin use_selenium num_jobs (Some 0) lim fuel search_url w
  = V7.scrape_jobs site urljoin use_selenium num_jobs None lim fuel search_url w
  /\
  option_map (map V7.job_id)
    (returned (V7.scrape_jobs Sample.five_cards Sample.urljoin true (Some 0) (Some 0) None
                 5 Sample.search_url []))
  = Some ["1"; "2"; "3"; "4"; "5"].
Proof.
  rewrite !scrape_jobs_unfold.
  destruct (while_true_zero site urljoin use_selenium num_jobs max_pages lim fuel
              (initial_session search_url) w) as [E1 E2].
  rewrite E1, E2. repeat split.
Qed.

(** *** A results page that cannot be fetched *)

(** C2.  When the last attempt to fetch a results page raises, which the
    [aiohttp] transport lets through, [scrape_jobs] returns the empty list
    and not the records accumulated: on a site whose page 2 raises at
    every attempt, the pass over page 1 accumulates the record of job 1 and
    the run returns [[]].  On the same site the browser transport, and on a
    page 2 that answers 503 the [aiohttp] transport, return that record. *)
Theorem raising_fetch_loses_accumulated_jobs :
  (exists s w,
     page_pass Sample.second_page_down Sample.urljoin false None None None
       (initial_session Sample.search_url) [] = Some (s, w)
     /\ map V7.job_id (all_jobs_data s) = ["1"]
     /\ fst (V7.fetch_page Sample.second_page_down false (current_url s) 3 w)
        = Exc (ClientError "Server disconnected"))
  /\ returned (V7.scrape_jobs Sample.second_page_down Sample.urljoin false None None None
                 5 Sample.search_url []) = Some []
  /\ option_map (map V7.job_id)
       (returned (V7.scrape_jobs Sample.second_page_down Sample.urljoin true None None None
                    5 Sample.search_url [])) = Some ["1"]
  /\ option_map (map V7.job_id)
       (returned (V7.scrape_jobs Sample.second_page_503 Sample.urljoin false None None None
                    5 Sample.search_url [])) = Some ["1"].
Proof.
  split; [|repeat split].
  eexists _, _. split; [reflexivity|]. split; reflexivity.
Qed.

(** ** The title filter of v4 *)

Lemma lower_app (a b : string) : Py.lower (a ++ b) = Py.lower a ++ Py.lower b.
Proof. induction a as [|c a IH]; simpl; [reflexivity | now rewrite IH]. Qed.






(** ** Worked examples *)

Example extract_job_id_examples :
  extract_job_id "https://www.seek.com.au/job/81234567?type=standard&ref=search" = "81234567"
  /\ extract_job_id "https://www.seek.com.au/job/81234567" = "81234567"
  /\ extract_job_id "/job/?ref=search" = "".
Proof. repeat split. Qed.

Example convert_to_days_examples :
  _convert_to_days "Posted 3h ago" = Fin (3 / 24)
  /\ _convert_to_days "POSTED 7 M AGO" = Fin (7 / 1440)
  /\ _convert_to_days "Posted 12d ago" = Fin 12
  /\ _convert_to_days "Posted 30+ days ago" = Inf.
Proof. repeat split. Qed.

(** When the limit on jobs is met by the last card of a page, the next
    results page is still requested before the run returns. *)
Example limit_met_at_page_end :
  let r := V7.scrape_jobs Sample.stale_third Sample.urljoin true (Some 4) None None
             5 Sample.search_url [] in
  option_map (map V7.job_id) (returned r) = Some ["1"; "2"; "3"; "4"]
  /\ last (requests r) "" = "https://www.seek.com.au/data-jobs?page=2".
Proof. repeat split. Qed.

(** A job page that cannot be fetched costs three times three requests and
    skips the card, not the session. *)
Example detail_fetch_exhausted :
  let site := Sample.static
                [ (Sample.search_url,
                   Loaded 200 (Sample.results_page
                     [ Sample.card "Data Analyst" "/job/1";
                       Sample.card "Data Engineer" "/job/2" ] None));
                  ("https://www.seek.com.au/job/1", Raised (ClientError "Connection timeout"));
                  ("https://www.seek.com.au/job/2",
                   Loaded 200 (Sample.job_page "Data Engineer" "Posted 2h ago")) ] in
  let r := V7.scrape_jobs site Sample.urljoin false None None None 5 Sample.search_url [] in
  option_map (map V7.job_id) (returned r) = Some ["2"]
  /\ List.length (requests r) = 11%nat.
Proof. repeat split. Qed.

(** * Further properties of the code *)

(** ** More facts on strings *)

Lemma prefix_spec (sub s : string) :
  prefix sub s = true <-> exists post, s = sub ++ post.
Proof.
  split.
  - revert s. induction sub as [|x sub IH]; intros s H.
    + now exists s.
    + destruct s as [|y s]; simpl in H; [discriminate|].
      destruct (ascii_dec x y) as [->|]; [|discriminate].
      destruct (IH s H) as [post ->]. now exists post.
  - intros [post ->]. apply prefix_refl_app.
Qed.

Lemma contains_prefix (sub s : string) :
  prefix sub s = true -> Py.contains sub s = true.
Proof. intros H. destruct s; simpl in *; now rewrite H. Qed.

(** [sub in s] holds exactly when [s] is some text, [sub], and some text. *)
Lemma contains_spec (sub s : string) :
  Py.contains sub s = true <-> exists pre post, s = pre ++ sub ++ post.
Proof.
  split.
  - induction s as [|c s IH]; intros H.
    + cbn [Py.contains] in H. rewrite orb_false_r in H.
      apply prefix_spec in H. destruct H as [post H]. now exists "", post.
    + rewrite contains_cons in H. apply orb_true_iff in H. destruct H as [H | H].
      * apply prefix_spec in H. destruct H as [post H]. now exists "", post.
      * destruct (IH H) as (pre & post & ->). now exists (String c pre), post.
  - intros (pre & post & ->). induction pre as [|c pre IH].
    + change ("" ++ sub ++ post) with (sub ++ post).
      apply contains_prefix, prefix_refl_app.
    + cbn [append]. rewrite contains_cons, IH. apply orb_true_r.
Qed.

Lemma contains_trans (a b c : string) :
  Py.contains a b = true -> Py.contains b c = true -> Py.contains a c = true.
Proof.
  intros H1 H2. apply contains_spec in H1. apply contains_spec in H2.
  destruct H1 as (p1 & q1 & ->). destruct H2 as (p2 & q2 & ->).
  apply contains_spec. exists (p2 ++ p1), (q1 ++ q2).
  now rewrite !app_assoc_str.
Qed.

Lemma take_drop (k : nat) (s : string) : Py.take k s ++ Py.drop k s = s.
Proof.
  revert s. induction k as [|k IH]; intros s; [reflexivity|].
  destruct s as [|c s]; simpl; [reflexivity | now rewrite IH].
Qed.

Lemma contains_take_drop (k n : nat) (s : string) :
  Py.contains (Py.take k (Py.drop n s)) s = true.
Proof.
  apply contains_spec. exists (Py.take n s), (Py.drop k (Py.drop n s)).
  now rewrite take_drop, take_drop.
Qed.

(** A slice is a piece of the string. *)
Lemma contains_slice (s : string) (start : Z) (stop : option Z) :
  Py.contains (Py.slice s start stop) s = true.
Proof.
  unfold Py.slice. apply contains_take_drop.
Qed.

Lemma prefix_char (c x : ascii) (s : string) :
  prefix (String c "") (String x s) = if ascii_dec c x then true else false.
Proof. cbn [prefix]. destruct (ascii_dec c x); [now destruct s | reflexivity]. Qed.

Lemma contains_char_take (c : ascii) (k : nat) (s : string) :
  Py.contains (String c "") s = false -> Py.contains (String c "") (Py.take k s) = false.
Proof.
  revert k. induction s as [|x s IH]; intros k H.
  - now destruct k.
  - destruct k as [|k]; [reflexivity|].
    rewrite contains_cons in H. apply orb_false_elim in H. destruct H as [H1 H2].
    cbn [Py.take]. rewrite contains_cons. rewrite prefix_char in *.
    rewrite H1. now apply IH.
Qed.

Lemma find_at_range (sub s : string) (pos : Z) :
  Py.find_at sub s pos = -1 \/ pos <= Py.find_at sub s pos.
Proof.
  revert pos. induction s as [|x s IH]; intros pos; cbn [Py.find_at].
  - destruct (prefix sub ""); [right; lia | now left].
  - destruct (prefix sub (String x s)); [right; lia|].
    destruct (IH (pos + 1)) as [H | H]; [now left | right; lia].
Qed.

Lemma find_at_none (sub s : string) (pos : Z) :
  0 <= pos -> Py.find_at sub s pos = -1 -> Py.contains sub s = false.
Proof.
  revert pos. induction s as [|x s IH]; intros pos Hp H; cbn [Py.find_at] in H.
  - cbn [Py.contains]. destruct (prefix sub ""); [lia | reflexivity].
  - rewrite contains_cons. destruct (prefix sub (String x s)); [lia|].
    cbn [orb]. apply (IH (pos + 1)); [lia | exact H].
Qed.

(** Before the position [find] gives there is no occurrence of the
    character. *)
Lemma no_char_before_find (c : ascii) (s : string) (pos : Z) (k : nat) :
  Py.find_at (String c "") s pos <> -1 ->
  (k <= Z.to_nat (Py.find_at (String c "") s pos - pos))%nat ->
  Py.contains (String c "") (Py.take k s) = false.
Proof.
  revert pos k. induction s as [|x s IH]; intros pos k Hne Hk.
  - now destruct k.
  - destruct k as [|k]; [reflexivity|].
    cbn [Py.find_at] in *. rewrite prefix_char in *.
    destruct (ascii_dec c x) as [E | E]; [lia|].
    cbn [Py.take]. rewrite contains_cons, prefix_char.
    destruct (ascii_dec c x); [contradiction|]. simpl.
    apply (IH (pos + 1)); [exact Hne|].
    destruct (find_at_range (String c "") s (pos + 1)); lia.
Qed.

Lemma find_range (sub s : string) (start : Z) :
  0 <= start -> Py.find sub s start = -1 \/ start <= Py.find sub s start.
Proof.
  intros H. unfold Py.find, Py.adjust_index.
  assert (E : (start <? 0) = false) by lia. rewrite E.
  destruct (Py.len s - start <? Py.len sub); [now left|]. apply find_at_range.
Qed.

(** ** More on [extract_job_id] *)

(** X1.  The id never has a ['?'] in it, whatever the URL. *)
Theorem extract_job_id_has_no_query (url : string) :
  Py.contains "?" (extract_job_id url) = false.
Proof.
  unfold extract_job_id.
  remember (Py.find "/job/" url 0 + 5) as st eqn:Est.
  assert (Hst : 4 <= st).
  { subst st. destruct (find_range "/job/" url 0 ltac:(lia)); lia. }
  clear Est.
  assert (E0 : (st <? 0) = false) by lia.
  unfold Py.find, Py.slice, Py.adjust_index. rewrite E0.
  change (Py.len "?") with 1.
  destruct (Py.len url - st <? 1) eqn:E1.
  - simpl (-1 =? -1). rewrite Z.min_r by lia. now rewrite Z.sub_diag.
  - rewrite (Z.min_l st) by lia.
    remember (Py.drop (Z.to_nat st) url) as r eqn:Er.
    remember (Py.find_at "?" r st) as e eqn:Ee.
    destruct (e =? -1) eqn:E2.
    + apply Z.eqb_eq in E2. apply contains_char_take.
      apply (find_at_none _ _ st); [lia | congruence].
    + apply Z.eqb_neq in E2.
      destruct (find_at_range "?" r st) as [H | H]; [congruence|].
      rewrite <- Ee in H.
      assert (E3 : (e <? 0) = false) by lia. rewrite E3.
      apply (no_char_before_find "?" r st); [congruence|].
      rewrite <- Ee. lia.
Qed.

(** X2.  The id is always a piece of the URL. *)
Theorem extract_job_id_in_url (url : string) :
  Py.contains (extract_job_id url) url = true.
Proof.
  unfold extract_job_id. destruct (_ =? -1); apply contains_slice.
Qed.

(** ** More on ages and the recency window *)

Lemma int_of_digits_nonneg (d : string) (acc : Z) :
  all_chars Py.isdigit d = true -> 0 <= acc -> 0 <= int_of_digits acc d.
Proof.
  revert acc. induction d as [|c d IH]; intros acc Hd Hacc; [exact Hacc|].
  cbn [all_chars] in Hd. apply andb_true_iff in Hd. destruct Hd as [Hc Hd].
  cbn [int_of_digits]. apply IH; [exact Hd|].
  unfold Py.isdigit in Hc. lia.
Qed.

Lemma Qdiv_nonneg (n k : Z) : 0 <= n -> 0 < k -> (0 <= inject_Z n / inject_Z k)%Q.
Proof.
  intros Hn Hk. unfold Qdiv. apply Qmult_le_0_compat.
  - change 0%Q with (inject_Z 0). now rewrite <- Zle_Qle.
  - apply Qinv_le_0_compat. change 0%Q with (inject_Z 0). rewrite <- Zle_Qle. lia.
Qed.

(** X3.  An age is never negative: it is a number of days at least [0], or
    [+inf]. *)
Theorem age_is_never_negative (posting_time : string) (q : Q) :
  _convert_to_days posting_time = Fin q -> (0 <= q)%Q.
Proof.
  unfold _convert_to_days.
  destruct (invalid_posting_time posting_time); [discriminate|].
  destruct (re_match_time (cleaned_posted_time posting_time)) as [[d u]|] eqn:E;
    [|discriminate].
  apply re_match_time_spec in E. destruct E as (_ & _ & _ & _ & Hd & _ & _).
  pose proof (int_of_digits_nonneg d 0 Hd ltac:(lia)) as Hn.
  unfold float_of_digits.
  destruct (Ascii.eqb u "m"); [|destruct (Ascii.eqb u "h")]; intros H; inversion H; subst.
  - apply Qdiv_nonneg; [exact Hn | reflexivity].
  - apply Qdiv_nonneg; [exact Hn | reflexivity].
  - change 0%Q with (inject_Z 0). now rewrite <- Zle_Qle.
Qed.

Lemma age_is_never_negative_witness : (0 <= 3 / 24)%Q.
Proof. apply (age_is_never_negative "Posted 3h ago" (3 / 24)). reflexivity. Defined.

Lemma float_le_lt_trans (a b c : pyfloat) : float_le a b -> float_lt b c -> float_lt a c.
Proof.
  destruct a as [x|], b as [y|], c as [z|]; simpl; try tauto.
  apply Qle_lt_trans.
Qed.

Lemma float_le_trans (a b c : pyfloat) : float_le a b -> float_le b c -> float_le a c.
Proof.
  destruct a as [x|], b as [y|], c as [z|]; simpl; try tauto.
  apply Qle_trans.
Qed.

Lemma float_lt_le (a b : pyfloat) : float_lt a b -> float_le a b.
Proof. destruct a as [x|], b as [y|]; simpl; try tauto. apply Qlt_le_weak. Qed.

(** X4.  A job at most as old as one that is within the limit is within it too,
    in each of the three source files. *)
Theorem fresher_job_is_within (older fresher : string) (time_limit : option string) :
  float_le (_convert_to_days fresher) (_convert_to_days older) ->
  (V7._is_within_time_limit older time_limit = true ->
   V7._is_within_time_limit fresher time_limit = true)
  /\ (V4._is_within_time_limit older time_limit = true ->
      V4._is_within_time_limit fresher time_limit = true)
  /\ (V3._is_within_time_limit older time_limit = true ->
      V3._is_within_time_limit fresher time_limit = true).
Proof.
  intros Hle.
  unfold V7._is_within_time_limit, V4._is_within_time_limit, V3._is_within_time_limit.
  destruct time_limit as [limit|]; [|auto].
  destruct (negb (Py.truthy_str limit)); [auto|].
  repeat split; intros H.
  - apply float_ltb_spec. apply float_ltb_spec in H. exact (float_le_lt_trans _ _ _ Hle H).
  - apply float_leb_spec. apply float_leb_spec in H. exact (float_le_trans _ _ _ Hle H).
  - apply float_leb_spec. apply float_leb_spec in H. exact (float_le_trans _ _ _ Hle H).
Qed.

Lemma fresher_job_is_within_witness :
  V7._is_within_time_limit "Posted 45m ago" (Some "1d") = true.
Proof.
  apply (proj1 (fresher_job_is_within "Posted 3h ago" "Posted 45m ago" (Some "1d")
                  ltac:(simpl; unfold Qle; simpl; lia))).
  reflexivity.
Defined.

(** X5.  Whatever v7 takes as within the limit, v3 and v4 take as within it. *)
Theorem v7_window_is_the_narrowest (posting_time : string) (time_limit : option string) :
  V7._is_within_time_limit posting_time time_limit = true ->
  V4._is_within_time_limit posting_time time_limit = true
  /\ V3._is_within_time_limit posting_time time_limit = true.
Proof.
  unfold V7._is_within_time_limit, V4._is_within_time_limit, V3._is_within_time_limit.
  destruct time_limit as [limit|]; [|auto].
  destruct (negb (Py.truthy_str limit)); [auto|].
  intros H. apply float_ltb_spec, float_lt_le, float_leb_spec in H. auto.
Qed.

Lemma v7_window_is_the_narrowest_witness :
  V4._is_within_time_limit "Posted 3h ago" (Some "1d") = true
  /\ V3._is_within_time_limit "Posted 3h ago" (Some "1d") = true.
Proof.
  apply (v7_window_is_the_narrowest "Posted 3h ago" (Some "1d")). reflexivity.
Defined.

(** ** More on the classifier *)

(** X6.  The rule for ["engineer"] shadows the one for ["data engineer"]: a
    title with ["engineer"] in it, in any case, and without
    ["data analyst"], is a ["Data Engineer"], so that leaving the rule for
    ["data engineer"] out of the table changes no answer. *)
Theorem engineer_rule_shadows (job_title : string) :
  (Py.contains "engineer" (Py.lower job_title) = true ->
   Py.contains "data analyst" (Py.lower job_title) = false ->
   V7.categorize_job_type job_title = "Data Engineer")
  /\ V7.categorize_job_type job_title
     = first_match
         (filter (fun r => negb (String.eqb (fst r) "data engineer")) rule_table)
         (Py.lower job_title).
Proof.
  assert (T : Py.contains "data engineer" (Py.lower job_title) = true ->
              Py.contains "engineer" (Py.lower job_title) = true).
  { apply contains_trans. reflexivity. }
  unfold V7.categorize_job_type. cbn.
  destruct (Py.contains "data analyst" (Py.lower job_title)).
  - split; [discriminate | reflexivity].
  - destruct (Py.contains "data engineer" (Py.lower job_title)).
    + rewrite (T eq_refl). auto.
    + split; [|reflexivity]. intros ->. reflexivity.
Qed.

Lemma engineer_rule_shadows_witness :
  V7.categorize_job_type "Site Reliability ENGINEER" = "Data Engineer".
Proof.
  apply (proj1 (engineer_rule_shadows "Site Reliability ENGINEER")); reflexivity.
Defined.

(** ** The scan for the posting time *)

(** X7.  The test on the unit tokens never rejects: ["Posted"] has a [d] in it.
    So the posting time recorded is the first span, stripped, that has
    ["Posted"] in it, whatever else it says, and the default when there is
    none. *)
Theorem posting_time_is_first_posted (posting_elements : list string) (default : string) :
  (forall text, is_posting_text text = Py.contains "Posted" text)
  /\ scan_posting_time posting_elements default
     = match List.find (fun element => Py.contains "Posted" (Py.strip element))
               posting_elements with
       | Some element => Py.strip element
       | None => default
       end.
Proof.
  assert (T : forall text, is_posting_text text = Py.contains "Posted" text).
  { intros text. unfold is_posting_text.
    destruct (Py.contains "Posted" text) eqn:E; [|reflexivity].
    assert (D : Py.contains "d" text = true)
      by (apply (contains_trans "d" "Posted" text); [reflexivity | exact E]).
    cbn. rewrite D. now rewrite !orb_true_r. }
  split; [exact T|].
  induction posting_elements as [|element rest IH]; [reflexivity|].
  cbn [scan_posting_time List.find]. rewrite T.
  destruct (Py.contains "Posted" (Py.strip element)); [reflexivity | exact IH].
Qed.

(** ** More on the title filter of v4 *)

Lemma split_from_blank (a b cur : string) (c : ascii) :
  Py.isspace c = true ->
  Py.split_from (a ++ String c b) cur = (Py.split_from a cur ++ Py.split b)%list.
Proof.
  intros Hc. revert cur. induction a as [|x a IH]; intros cur.
  - cbn [append Py.split_from]. rewrite Hc. now destruct cur.
  - cbn [append Py.split_from]. destruct (Py.isspace x).
    + destruct cur; [apply IH | cbn [app]; f_equal; apply IH].
    + apply IH.
Qed.

Lemma filter_as_forallb (job_title flt : string) :
  V4.job_title_conditional_filter job_title (Some flt)
  = forallb (fun word => Py.contains word (Py.lower job_title)) (Py.split (Py.lower flt)).
Proof.
  unfold V4.job_title_conditional_filter. now destruct flt.
Qed.

(** X8.  Two filters put together with a blank between them pass the titles
    that pass both. *)
Theorem title_filter_of_two (job_title flt1 flt2 : string) :
  V4.job_title_conditional_filter job_title (Some (flt1 ++ " " ++ flt2))
  = V4.job_title_conditional_filter job_title (Some flt1)
    && V4.job_title_conditional_filter job_title (Some flt2).
Proof.
  rewrite !filter_as_forallb. rewrite lower_app. cbn [Py.lower append].
  unfold Py.split at 1. rewrite split_from_blank by reflexivity.
  apply forallb_app.
Qed.




(** ** The page fetchers *)

Lemma repeat_snoc (url : string) (k : nat) (w : World) :
  ((w ++ [url]) ++ repeat url k = w ++ repeat url (S k))%list.
Proof. now rewrite <- app_assoc. Qed.

Section Fetchers.

Variable site : Site.

(** What a loop of attempts leaves behind, [n] attempts being left of
    [max_retries]: at most [n] requests, all for [url]; all [n] of them
    unless a document is returned. *)
Lemma aiohttp_attempts_requests (url : string) (n i : nat) (w : World) :
  exists k,
    requests (V7.aiohttp_attempts site url (Z.of_nat (i + n))
                (map Z.of_nat (seq i n)) w) = (w ++ repeat url k)%list
    /\ match fst (V7.aiohttp_attempts site url (Z.of_nat (i + n))
                    (map Z.of_nat (seq i n)) w) with
       | Val (Some _) => (1 <= k <= n)%nat
       | _ => k = n
       end.
Proof.
  revert i w. induction n as [|n IH]; intros i w.
  - exists 0%nat. cbn. now rewrite app_nil_r.
  - cbn [seq map V7.aiohttp_attempts]. unfold bind, request.
    replace (i + S n)%nat with (S i + n)%nat by lia.
    destruct (IH (S i) (w ++ [url])%list) as (k & Hk1 & Hk2).
    destruct (site w url) as [status html|e].
    + destruct (status =? 200).
      * exists 1%nat. cbn. split; [reflexivity | lia].
      * assert (E : (if status =? 403
                     then V7.aiohttp_attempts site url (Z.of_nat (S i + n))
                            (map Z.of_nat (seq (S i) n))
                     else V7.aiohttp_attempts site url (Z.of_nat (S i + n))
                            (map Z.of_nat (seq (S i) n)))
                    = V7.aiohttp_attempts site url (Z.of_nat (S i + n))
                        (map Z.of_nat (seq (S i) n)))
          by now destruct (status =? 403).
        rewrite E. exists (S k). rewrite <- repeat_snoc. split; [exact Hk1|].
        destruct (fst _) as [[soup|]|e]; lia.
    + destruct (Z.of_nat i <? Z.of_nat (S i + n) - 1) eqn:E.
      * exists (S k). rewrite <- repeat_snoc. split; [exact Hk1|].
        destruct (fst _) as [[soup|]|e']; lia.
      * apply Z.ltb_ge in E. exists 1%nat. unfold requests, raise. cbn [fst snd].
        split; [reflexivity | lia].
Qed.

Lemma selenium_attempts_requests (url : string) (max_retries : Z) (attempts : list Z)
      (w : World) :
  exists k,
    requests (V7.selenium_attempts site url max_retries attempts w)
    = (w ++ repeat url k)%list
    /\ match fst (V7.selenium_attempts site url max_retries attempts w) with
       | Val (Some _) => (1 <= k <= List.length attempts)%nat
       | Val None => k = List.length attempts
       | Exc _ => False
       end.
Proof.
  revert w. induction attempts as [|a attempts IH]; intros w.
  - exists 0%nat. cbn. now rewrite app_nil_r.
  - cbn [V7.selenium_attempts]. unfold bind, request.
    destruct (site w url) as [status html|e].
    + exists 1%nat. cbn. split; [reflexivity | lia].
    + destruct (IH (w ++ [url])%list) as (k & Hk1 & Hk2).
      exists (S k). rewrite <- repeat_snoc. split; [exact Hk1|].
      destruct (fst _) as [[soup|]|e']; cbn [List.length]; lia.
Qed.

Lemma fetch_page_requests (use_selenium : bool) (url : string) (max_retries : Z)
        (w : World) :
  exists k,
    requests (V7.fetch_page site use_selenium url max_retries w) = (w ++ repeat url k)%list
    /\ match fst (V7.fetch_page site use_selenium url max_retries w) with
       | Val (Some _) => 1 <= Z.of_nat k <= max_retries
       | _ => Z.of_nat k = Z.max 0 max_retries
       end.
Proof.
  unfold V7.fetch_page, V7._fetch_with_selenium, V7._fetch_with_aiohttp, range.
  destruct use_selenium.
  - destruct (selenium_attempts_requests url max_retries
                (map Z.of_nat (seq 0 (Z.to_nat max_retries))) w) as (k & Hk1 & Hk2).
    exists k. split; [exact Hk1|].
    rewrite length_map, length_seq in Hk2.
    destruct (fst _) as [[soup|]|e]; [lia | lia | contradiction].
  - destruct (Z_le_gt_dec max_retries 0) as [Hle | Hgt].
    + replace (Z.to_nat max_retries) with 0%nat by lia.
      exists 0%nat. cbn. rewrite app_nil_r. split; [reflexivity | lia].
    + destruct (aiohttp_attempts_requests url (Z.to_nat max_retries) 0 w)
        as (k & Hk1 & Hk2).
      replace (Z.of_nat (0 + Z.to_nat max_retries)) with max_retries in * by lia.
      exists k. split; [exact Hk1|].
      destruct (fst _) as [[soup|]|e]; lia.
Qed.


Lemma fetch_page_v4_v7 (url : string) (max_retries : Z) (w : World) :
  V4.fetch_page site url max_retries w = V7.fetch_page site false url max_retries w.
Proof.
  unfold V4.fetch_page, V7.fetch_page, V7._fetch_with_aiohttp.
  generalize (range max_retries). intros attempts. revert w.
  induction attempts as [|a attempts IH]; intros w; [reflexivity|].
  cbn [V4.fetch_attempts V7.aiohttp_attempts]. unfold bind, request.
  destruct (site w url) as [status html|e].
  - destruct (status =? 200); [reflexivity|].
    destruct (status =? 403); apply IH.
  - destruct (a <? max_retries - 1); [apply IH | reflexivity].
Qed.

(** X11.  The page fetcher of v4 is the [aiohttp] fetcher of v7: the wait on a
    403 that v7 adds changes neither the result nor the requests. *)
Theorem fetch_page_v4_is_aiohttp_v7 (url : string) (max_retries : Z) (w : World) :
  V4.fetch_page site url max_retries w = V7.fetch_page site false url max_retries w.
Proof. apply fetch_page_v4_v7. Qed.

(** *** The details of one job *)

Lemma fetch_three (use_selenium : bool) (url : string) (w : World) :
  exists k,
    (1 <= k <= 3)%nat
    /\ requests (V7.fetch_page site use_selenium url 3 w) = (w ++ repeat url k)%list
    /\ match fst (V7.fetch_page site use_selenium url 3 w) with
       | Val (Some _) => True
       | _ => k = 3%nat
       end.
Proof.
  destruct (fetch_page_requests use_selenium url 3 w) as (k & Hk1 & Hk2).
  exists k. destruct (fst _) as [[soup|]|e]; repeat split; (lia || assumption).
Qed.

Lemma extract_job_details_requests (use_selenium : bool) (job_url : string) (w : World) :
  exists k,
    (1 <= k <= 3)%nat
    /\ requests (V7.extract_job_details site use_selenium job_url w)
       = (w ++ repeat job_url k)%list
    /\ match fst (V7.extract_job_details site use_selenium job_url w) with
       | Val (Some d) => record_from job_url d
       | Val None => k = 3%nat
       | Exc _ => False
       end.
Proof.
  destruct (fetch_three use_selenium job_url w) as (k & Hk & Hk1 & Hk2).
  exists k. split; [exact Hk|].
  unfold V7.extract_job_details, try_except, bind, ret, requests in *.
  destruct (V7.fetch_page site use_selenium job_url 3 w) as [[[soup|]|e] w'];
    cbn [fst snd] in *; repeat split; assumption.
Qed.

Lemma detail_attempts_requests (use_selenium : bool) (job_url : string)
      (attempts : list Z) (w : World) :
  exists k,
    (k <= 3 * List.length attempts)%nat
    /\ requests (V7.detail_attempts site use_selenium job_url attempts w)
       = (w ++ repeat job_url k)%list
    /\ match fst (V7.detail_attempts site use_selenium job_url attempts w) with
       | Val (Some d) => (1 <= k)%nat /\ record_from job_url d
       | Val None => k = (3 * List.length attempts)%nat
       | Exc _ => False
       end.
Proof.
  revert w. induction attempts as [|a attempts IH]; intros w.
  - exists 0%nat. cbn. rewrite app_nil_r. auto.
  - cbn [V7.detail_attempts]. unfold bind, ret.
    destruct (extract_job_details_requests use_selenium job_url w) as (k1 & Hk & H1 & H2).
    unfold requests in *.
    destruct (V7.extract_job_details site use_selenium job_url w) as [[[d|]|e] w1];
      cbn [fst snd] in *; [| | contradiction].
    + exists k1. cbn [List.length]. split; [lia|]. split; [exact H1|]. split; [lia | exact H2].
    + destruct (IH w1) as (k2 & Hk2 & H3 & H4).
      exists (k1 + k2)%nat. cbn [List.length]. split; [lia|]. split.
      * rewrite H3, H1, repeat_app. now rewrite app_assoc.
      * destruct (fst _) as [[d|]|e]; [|lia|exact H4].
        split; [lia | tauto].
Qed.


End Fetchers.

(** ** Invariants of the session loop of v7 *)

Lemma within_without_limit (posting_time : string) (lim : option string) :
  Py.truthy_opt_str lim = false -> V7._is_within_time_limit posting_time lim = true.
Proof. destruct lim as [[|c l]|]; intros H; try reflexivity. discriminate H. Qed.

Section SessionInvariant.

Variable site : Site.
Variable urljoin : string -> string -> string.
Variable use_selenium : bool.
Variable num_jobs max_pages : option Z.
Variable lim : option string.

(** A property of records that holds of every record accepted. *)
Variable P : V7.JobDetails -> Prop.
Hypothesis P_accepted :
  forall href w d w',
    V7.detail_attempts site use_selenium (urljoin base_url href) (range 3) w
    = (Val (Some d), w') ->
    Py.truthy_opt_str lim && negb (V7._is_within_time_limit (V7.posting_time d) lim) = false ->
    P d.

Lemma process_card_inv card a j w :
  Forall P a -> j = Z.of_nat (List.length a) ->
  match V7.process_card site urljoin use_selenium num_jobs lim card a j w with
  | (Val (Continue a' j'), _) =>
      Forall P a' /\ j' = Z.of_nat (List.length a') /\ exists more, a' = (a ++ more)%list
  | (Val (Return jobs), _) => jobs = a
  | (Exc _, _) => False
  end.
Proof.
  intros Ha Hj.
  assert (Same : Forall P a /\ j = Z.of_nat (List.length a)
                 /\ exists more, a = (a ++ more)%list).
  { repeat split; try assumption. exists []. now rewrite app_nil_r. }
  unfold V7.process_card.
  destruct (limit_reached num_jobs j); [reflexivity|].
  unfold try_except, bind, ret.
  destruct (card_link card) as [[href|]|]; try exact Same.
  pose proof (detail_attempts_requests site use_selenium (urljoin base_url href)
                (range 3) w) as (k & _ & _ & Hd).
  destruct (V7.detail_attempts site use_selenium (urljoin base_url href) (range 3) w)
    as [[[d|]|e] w'] eqn:E; cbn [fst] in Hd; [| exact Same | contradiction].
  destruct (Py.truthy_opt_str lim
            && negb (V7._is_within_time_limit (V7.posting_time d) lim)) eqn:A;
    [reflexivity|].
  repeat split.
  - apply Forall_app. split; [exact Ha|]. constructor; [|constructor].
    exact (P_accepted href w d w' E A).
  - rewrite length_app. cbn [List.length]. lia.
  - now exists [d].
Qed.

Lemma for_cards_inv cards a j w :
  Forall P a -> j = Z.of_nat (List.length a) ->
  match V7.for_cards site urljoin use_selenium num_jobs lim cards a j w with
  | (Val (Continue a' j'), _) =>
      Forall P a' /\ j' = Z.of_nat (List.length a') /\ exists more, a' = (a ++ more)%list
  | (Val (Return jobs), _) => Forall P jobs /\ exists more, jobs = (a ++ more)%list
  | (Exc _, _) => False
  end.
Proof.
  revert a j w. induction cards as [|card cards IH]; intros a j w Ha Hj.
  - cbn. repeat split; try assumption. exists []. now rewrite app_nil_r.
  - cbn [V7.for_cards]. unfold bind.
    pose proof (process_card_inv card a j w Ha Hj) as H.
    destruct (V7.process_card site urljoin use_selenium num_jobs lim card a j w)
      as [[[a1 j1|jobs]|e] w1]; [| | contradiction].
    + destruct H as (H1 & H2 & more1 & ->).
      specialize (IH (a ++ more1)%list j1 w1 H1 H2).
      destruct (V7.for_cards site urljoin use_selenium num_jobs lim cards
                  (a ++ more1)%list j1 w1) as [[[a2 j2|jobs]|e] w2]; [| | contradiction].
      * destruct IH as (I1 & I2 & more2 & ->). repeat split; try assumption.
        exists (more1 ++ more2)%list. now rewrite app_assoc.
      * destruct IH as (I1 & more2 & ->). split; [assumption|].
        exists (more1 ++ more2)%list. now rewrite app_assoc.
    + subst jobs. cbn. split; [assumption|]. exists []. now rewrite app_nil_r.
Qed.

Lemma while_true_inv fuel s w :
  Forall P (all_jobs_data s) ->
  jobs_scraped s = Z.of_nat (List.length (all_jobs_data s)) ->
  match V7.while_true site urljoin use_selenium num_jobs max_pages lim fuel s w with
  | (Val (Finished jobs), _) =>
      Forall P jobs /\ exists more, jobs = (all_jobs_data s ++ more)%list
  | (Val (Running s'), _) =>
      Forall P (all_jobs_data s')
      /\ jobs_scraped s' = Z.of_nat (List.length (all_jobs_data s'))
      /\ exists more, all_jobs_data s' = (all_jobs_data s ++ more)%list
  | (Exc _, _) => True
  end.
Proof.
  revert s w. induction fuel as [|fuel IH]; intros s w Ha Hj.
  - cbn. repeat split; try assumption. exists []. now rewrite app_nil_r.
  - assert (Same : Forall P (all_jobs_data s)
                   /\ exists more, all_jobs_data s = (all_jobs_data s ++ more)%list).
    { split; [assumption|]. exists []. now rewrite app_nil_r. }
    rewrite while_true_step.
    destruct (V7.fetch_page site use_selenium (current_url s) 3 w) as [[[soup|]|e] w1];
      [| exact Same | exact I].
    pose proof (for_cards_inv (job_cards soup) _ _ w1 Ha Hj) as H.
    destruct (V7.for_cards site urljoin use_selenium num_jobs lim (job_cards soup)
                (all_jobs_data s) (jobs_scraped s) w1) as [[[a j|jobs]|e] w2];
      [| exact H | exact I].
    destruct H as (H1 & H2 & more1 & E1).
    assert (Done : Forall P a /\ exists more, a = (all_jobs_data s ++ more)%list)
      by (split; [assumption | now exists more1]).
    destruct (limit_reached max_pages (current_page s)); [exact Done|].
    destruct (get_next_page_url urljoin soup (current_page s)) as [u|]; [|exact Done].
    destruct (Py.truthy_str u); [|exact Done].
    specialize (IH {| all_jobs_data := a; jobs_scraped := j;
                      current_page := current_page s + 1; current_url := u |} w2 H1 H2).
    cbn [all_jobs_data jobs_scraped] in IH.
    destruct (V7.while_true site urljoin use_selenium num_jobs max_pages lim fuel _ w2)
      as [[[jobs|s']|e] w3]; [| | exact I].
    + destruct IH as (I1 & more2 & ->). split; [assumption|].
      exists (more1 ++ more2)%list. rewrite E1. now rewrite app_assoc.
    + destruct IH as (I1 & I2 & more2 & I3). repeat split; try assumption.
      exists (more1 ++ more2)%list. rewrite I3, E1. now rewrite app_assoc.
Qed.

End SessionInvariant.

(** X13.  The loop only adds to its list, at the end: from any session whose
    counter is the length of its list, what the loop returns, or holds when
    the bound on pages is met, starts with the list it had, and the counter
    is still the length of the list. *)
Theorem session_list_only_grows
        (site : Site) (urljoin : string -> string -> string) (use_selenium : bool)
        (num_jobs max_pages : option Z) (lim : option string)
        (fuel : nat) (s : Session V7.JobDetails) (w : World) :
  jobs_scraped s = Z.of_nat (List.length (all_jobs_data s)) ->
  match V7.while_true site urljoin use_selenium num_jobs max_pages lim fuel s w with
  | (Val (Finished jobs), _) => exists more, jobs = (all_jobs_data s ++ more)%list
  | (Val (Running s'), _) =>
      jobs_scraped s' = Z.of_nat (List.length (all_jobs_data s'))
      /\ exists more, all_jobs_data s' = (all_jobs_data s ++ more)%list
  | (Exc _, _) => True
  end.
Proof.
  intros Hj.
  pose proof (while_true_inv site urljoin use_selenium num_jobs max_pages lim
                (fun _ => True) (fun _ _ _ _ _ _ => I) fuel s w
                (proj2 (Forall_forall _ _) (fun _ _ => I)) Hj) as H.
  destruct (V7.while_true site urljoin use_selenium num_jobs max_pages lim fuel s w)
    as [[[jobs|s']|e] w']; [| | exact I].
  - apply H.
  - destruct H as (_ & H2 & H3). now split.
Qed.

Lemma session_list_only_grows_witness :
  match V7.while_true Sample.stale_third Sample.urljoin true None None None 1
          {| all_jobs_data := []; jobs_scraped := 0; current_page := 2;
             current_url := "https://www.seek.com.au/data-jobs?page=2" |} [] with
  | (Val (Finished jobs), _) => exists more, jobs = ([] ++ more)%list
  | (Val (Running s'), _) =>
      jobs_scraped s' = Z.of_nat (List.length (all_jobs_data s'))
      /\ exists more, all_jobs_data s' = ([] ++ more)%list
  | (Exc _, _) => True
  end.
Proof.
  apply (session_list_only_grows Sample.stale_third Sample.urljoin true None None None
           1%nat
           {| all_jobs_data := []; jobs_scraped := 0; current_page := 2;
              current_url := "https://www.seek.com.au/data-jobs?page=2" |} []).
  reflexivity.
Defined.

(** X14.  Every record [scrape_jobs] returns, or holds when the bound on pages is
    met, is within the recency limit as v7 decides it; with a limit set, it
    has a finite age: a job whose posting time cannot be read is never
    returned. *)
Theorem returned_jobs_are_within_limit
        (site : Site) (urljoin : string -> string -> string) (use_selenium : bool)
        (num_jobs max_pages : option Z) (lim : option string)
        (fuel : nat) (search_url : string) (w : World) :
  let fresh d :=
    V7._is_within_time_limit (V7.posting_time d) lim = true
    /\ (Py.truthy_opt_str lim = true -> is_finite (_convert_to_days (V7.posting_time d))) in
  match V7.scrape_jobs site urljoin use_selenium num_jobs max_pages lim fuel search_url w with
  | (Val (Finished jobs), _) => Forall fresh jobs
  | (Val (Running s), _) => Forall fresh (all_jobs_data s)
  | (Exc _, _) => False
  end.
Proof.
  intros fresh. rewrite scrape_jobs_unfold.
  assert (A : forall href w0 d w',
             V7.detail_attempts site use_selenium (urljoin base_url href) (range 3) w0
             = (Val (Some d), w') ->
             Py.truthy_opt_str lim
             && negb (V7._is_within_time_limit (V7.posting_time d) lim) = false ->
             fresh d).
  { intros href w0 d w' _ H. unfold fresh.
    destruct (Py.truthy_opt_str lim) eqn:T.
    - cbn [andb] in H. apply negb_false_iff in H. split; [exact H|]. intros _.
      unfold V7._is_within_time_limit in H.
      destruct lim as [[|c l]|]; try discriminate T. cbn [Py.truthy_str negb] in H.
      now destruct (_convert_to_days (V7.posting_time d)).
    - split; [now apply within_without_limit | discriminate]. }
  pose proof (while_true_inv site urljoin use_selenium num_jobs max_pages lim fresh A
                fuel (initial_session search_url) w (Forall_nil _) eq_refl) as H.
  destruct (V7.while_true site urljoin use_selenium num_jobs max_pages lim fuel
              (initial_session search_url) w) as [[[jobs|s]|e] w'].
  - apply H.
  - apply H.
  - constructor.
Qed.


(** ** When the session ends *)

Section Ending.

Variable site : Site.
Variable urljoin : string -> string -> string.
Variable use_selenium : bool.
Variable num_jobs : option Z.
Variable lim : option string.

Lemma limit_reached_at (m page : Z) :
  m <> 0 -> limit_reached (Some m) page = (page >=? m).
Proof.
  intros H. unfold limit_reached, Py.truthy_opt_int.
  destruct (m =? 0) eqn:E; [lia | reflexivity].
Qed.

Lemma while_true_ends (m : Z) (fuel : nat) (s : Session V7.JobDetails) (w : World) :
  0 < m ->
  Z.max 0 (m - current_page s) < Z.of_nat fuel ->
  match V7.while_true site urljoin use_selenium num_jobs (Some m) lim fuel s w with
  | (Val (Running _), _) => False
  | _ => True
  end.
Proof.
  intros Hm. revert s w. induction fuel as [|fuel IH]; intros s w Hf; [lia|].
  rewrite while_true_step.
  destruct (V7.fetch_page site use_selenium (current_url s) 3 w) as [[[soup|]|e] w1];
    try exact I.
  destruct (V7.for_cards site urljoin use_selenium num_jobs lim (job_cards soup)
              (all_jobs_data s) (jobs_scraped s) w1) as [[[a j|jobs]|e] w2];
    try exact I.
  rewrite limit_reached_at by lia.
  destruct (current_page s >=? m) eqn:E; [exact I|].
  destruct (get_next_page_url urljoin soup (current_page s)) as [u|]; [|exact I].
  destruct (Py.truthy_str u); [|exact I].
  apply IH. cbn [current_page]. lia.
Qed.

Lemma after_pages_page (m : Z) (k : nat) (s0 s : Session V7.JobDetails) (w w' : World) :
  0 < m ->
  current_page s0 <= m ->
  after_pages site urljoin use_selenium num_jobs (Some m) lim k s0 w = Some (s, w') ->
  current_page s = current_page s0 + Z.of_nat k /\ current_page s <= m.
Proof.
  intros Hm. revert s0 w. induction k as [|k IH]; intros s0 w H0 H.
  - cbn in H. inversion H; subst. lia.
  - cbn [after_pages] in H. unfold page_pass in H.
    destruct (V7.fetch_page site use_selenium (current_url s0) 3 w) as [[[soup|]|e] w1];
      try discriminate.
    destruct (V7.for_cards site urljoin use_selenium num_jobs lim (job_cards soup)
                (all_jobs_data s0) (jobs_scraped s0) w1) as [[[a j|jobs]|e] w2];
      try discriminate.
    rewrite limit_reached_at in H by lia.
    destruct (current_page s0 >=? m) eqn:E; [discriminate|].
    destruct (get_next_page_url urljoin soup (current_page s0)) as [u|]; [|discriminate].
    destruct (Py.truthy_str u); [|discriminate].
    apply IH in H; cbn [current_page] in *; lia.
Qed.




End Ending.

(** X16.  With [max_pages] a positive integer, [scrape_jobs] returns within
    [max_pages] passes of its loop, on any site and with any other
    argument; and the loop never goes past page [max_pages]. *)
Theorem max_pages_ends_the_session
        (site : Site) (urljoin : string -> string -> string) (use_selenium : bool)
        (num_jobs : option Z) (m : Z) (lim : option string)
        (fuel : nat) (search_url : string) (w : World) :
  0 < m ->
  m <= Z.of_nat fuel ->
  (exists jobs w',
     V7.scrape_jobs site urljoin use_selenium num_jobs (Some m) lim fuel search_url w
     = (Val (Finished jobs), w'))
  /\ (forall k s w',
        after_pages site urljoin use_selenium num_jobs (Some m) lim k
          (initial_session search_url) w = Some (s, w') ->
        current_page s = Z.of_nat k + 1 /\ current_page s <= m).
Proof.
  intros Hm Hf. split.
  - rewrite scrape_jobs_unfold.
    pose proof (while_true_ends site urljoin use_selenium num_jobs lim m fuel
                  (initial_session search_url) w Hm) as H.
    cbn [initial_session current_page] in H. specialize (H ltac:(lia)).
    destruct (V7.while_true site urljoin use_selenium num_jobs (Some m) lim fuel
                (initial_session search_url) w) as [[[jobs|s]|e] w'].
    + now exists jobs, w'.
    + contradiction.
    + now exists [], w'.
  - intros k s w' H.
    apply (after_pages_page site urljoin use_selenium num_jobs lim m) in H;
      cbn [initial_session current_page] in *; lia.
Qed.

Lemma max_pages_ends_the_session_witness :
  exists jobs w',
    V7.scrape_jobs endless_site Sample.urljoin true None (Some 2) None 2
      Sample.search_url [] = (Val (Finished jobs), w').
Proof.
  apply (proj1 (max_pages_ends_the_session endless_site Sample.urljoin true None 2 None
                  2%nat Sample.search_url [] ltac:(lia) ltac:(lia))).
Defined.

(** X17.  The loop has no bound of its own: on a site that answers every
    request with a page without cards and with a link to the next page,
    and without [max_pages], the loop is still running after any number of
    passes, one request and one page further at each, whatever [num_jobs]
    and the recency limit. *)
Theorem endless_site_never_ends
        (site : Site) (urljoin : string -> string -> string) (use_selenium : bool)
        (num_jobs : option Z) (lim : option string)
        (fuel : nat) (search_url : string) (w : World) :
  endless site urljoin ->
  exists s w',
    V7.scrape_jobs site urljoin use_selenium num_jobs None lim fuel search_url w
    = (Val (Running s), w')
    /\ current_page s = Z.of_nat fuel + 1
    /\ all_jobs_data s = []
    /\ List.length w' = (List.length w + fuel)%nat.
Proof.
  intros H. rewrite scrape_jobs_unfold.
  assert (G : forall fuel s w,
             exists s' w',
               V7.while_true site urljoin use_selenium num_jobs None lim fuel s w
               = (Val (Running s'), w')
               /\ current_page s' = current_page s + Z.of_nat fuel
               /\ all_jobs_data s' = all_jobs_data s
               /\ List.length w' = (List.length w + fuel)%nat).
  { clear fuel w. induction fuel as [|fuel IH]; intros s w.
    - exists s, w. cbn. repeat split; lia.
    - rewrite while_true_step.
      destruct (H w (current_url s)) as (soup & Hs & Hc & Hl).
      assert (F : V7.fetch_page site use_selenium (current_url s) 3 w
                  = (Val (Some soup), (w ++ [current_url s])%list)).
      { unfold V7.fetch_page, V7._fetch_with_selenium, V7._fetch_with_aiohttp.
        change (range 3) with [0; 1; 2].
        destruct use_selenium; cbn [V7.selenium_attempts V7.aiohttp_attempts];
          unfold bind, request; now rewrite Hs. }
      rewrite F, Hc. cbn [V7.for_cards]. unfold ret.
      change (limit_reached None (current_page s)) with false. cbn iota.
      unfold get_next_page_url.
      destruct (Hl (current_page s + 1)) as (href & Hp & Ht). rewrite Hp, Ht.
      destruct (IH {| all_jobs_data := all_jobs_data s; jobs_scraped := jobs_scraped s;
                      current_page := current_page s + 1;
                      current_url := urljoin base_url href |}
                   (w ++ [current_url s])%list) as (s' & w' & E & P1 & P2 & P3).
      exists s', w'. rewrite E. cbn [current_page all_jobs_data] in *.
      rewrite length_app in P3. cbn [List.length] in P3.
      repeat split; (lia || assumption). }
  destruct (G fuel (initial_session search_url) w) as (s' & w' & E & P1 & P2 & P3).
  exists s', w'. rewrite E. cbn [initial_session current_page all_jobs_data] in *.
  repeat split; (lia || assumption).
Qed.

Lemma endless_site_never_ends_witness :
  exists s w',
    V7.scrape_jobs endless_site Sample.urljoin false (Some 5) None (Some "1d") 7
      Sample.search_url [] = (Val (Running s), w')
    /\ current_page s = 8
    /\ all_jobs_data s = []
    /\ List.length w' = 7%nat.
Proof.
  apply (endless_site_never_ends endless_site Sample.urljoin false (Some 5) (Some "1d")
           7%nat Sample.search_url []).
  intros w url. eexists. split; [reflexivity|]. split; [reflexivity|].
  intros n. eexists. split; reflexivity.
Defined.



(** ** Limits below zero *)

Section NegativeLimits.

Variable site : Site.
Variable urljoin : string -> string -> string.
Variable use_selenium : bool.
Variable lim : option string.

Lemma for_cards_negative (n : Z) cards a j w :
  n < 0 -> 0 <= j ->
  V7.for_cards site urljoin use_selenium (Some n) lim cards a j w
  = (Val (match cards with [] => Continue a j | _ => Return a end), w).
Proof.
  intros Hn Hj. destruct cards as [|card cards]; [reflexivity|].
  cbn [V7.for_cards]. unfold bind, V7.process_card.
  rewrite limit_reached_at by lia.
  assert (E : (j >=? n) = true) by lia. now rewrite E.
Qed.

Lemma while_true_negative (n : Z) max_pages fuel s w :
  n < 0 -> 0 <= jobs_scraped s ->
  match V7.while_true site urljoin use_selenium (Some n) max_pages lim fuel s w with
  | (Val (Finished jobs), _) => jobs = all_jobs_data s
  | (Val (Running s'), _) => all_jobs_data s' = all_jobs_data s
  | (Exc _, _) => True
  end.
Proof.
  intros Hn. revert s w. induction fuel as [|fuel IH]; intros s w Hj; [reflexivity|].
  rewrite while_true_step.
  destruct (V7.fetch_page site use_selenium (current_url s) 3 w) as [[[soup|]|e] w1];
    [| reflexivity | exact I].
  rewrite for_cards_negative by assumption.
  destruct (job_cards soup) as [|card cards]; [|reflexivity].
  destruct (limit_reached max_pages (current_page s)); [reflexivity|].
  destruct (get_next_page_url urljoin soup (current_page s)) as [u|]; [|reflexivity].
  destruct (Py.truthy_str u); [|reflexivity].
  apply (IH {| all_jobs_data := all_jobs_data s; jobs_scraped := jobs_scraped s;
               current_page := current_page s + 1; current_url := u |} w1 Hj).
Qed.

End NegativeLimits.

(** X19.  With [num_jobs] below zero [scrape_jobs] never has a record: the limit
    counts as met from the start, the first card met makes the run return
    the empty list, and the cards of a page cost no request. *)
Theorem negative_num_jobs_returns_nothing
        (site : Site) (urljoin : string -> string -> string) (use_selenium : bool)
        (n : Z) (max_pages : option Z) (lim : option string)
        (fuel : nat) (search_url : string) (w : World) :
  n < 0 ->
  match V7.scrape_jobs site urljoin use_selenium (Some n) max_pages lim fuel search_url w with
  | (Val (Finished jobs), _) => jobs = []
  | (Val (Running s), _) => all_jobs_data s = []
  | (Exc _, _) => False
  end
  /\ (forall card cards a j w',
        0 <= j ->
        V7.for_cards site urljoin use_selenium (Some n) lim (card :: cards) a j w'
        = (Val (Return a), w')).
Proof.
  intros Hn. split.
  - rewrite scrape_jobs_unfold.
    pose proof (while_true_negative site urljoin use_selenium lim n max_pages fuel
                  (initial_session search_url) w Hn ltac:(cbn; lia)) as H.
    destruct (V7.while_true site urljoin use_selenium (Some n) max_pages lim fuel
                (initial_session search_url) w) as [[[jobs|s]|e] w']; auto.
  - intros card cards a j w' Hj. now rewrite for_cards_negative.
Qed.

Lemma negative_num_jobs_returns_nothing_witness :
  match V7.scrape_jobs Sample.five_cards Sample.urljoin true (Some (-1)) None None 3
          Sample.search_url [] with
  | (Val (Finished jobs), _) => jobs = []
  | (Val (Running s), _) => all_jobs_data s = []
  | (Exc _, _) => False
  end.
Proof.
  apply (proj1 (negative_num_jobs_returns_nothing Sample.five_cards Sample.urljoin true
                  (-1) None None 3%nat Sample.search_url [] ltac:(lia))).
Defined.

(** X20.  With [max_pages] below zero [scrape_jobs] does what it does with
    [max_pages = 1]: it goes through the first page and stops. *)
Theorem negative_max_pages_is_one_page
        (site : Site) (urljoin : string -> string -> string) (use_selenium : bool)
        (num_jobs : option Z) (m : Z) (lim : option string)
        (fuel : nat) (search_url : string) (w : World) :
  m < 0 ->
  V7.scrape_jobs site urljoin use_selenium num_jobs (Some m) lim fuel search_url w
  = V7.scrape_jobs site urljoin use_selenium num_jobs (Some 1) lim fuel search_url w.
Proof.
  intros Hm. rewrite !scrape_jobs_unfold.
  destruct fuel as [|fuel]; [reflexivity|].
  rewrite !while_true_step.
  destruct (V7.fetch_page site use_selenium
              (current_url (initial_session search_url)) 3 w) as [[[soup|]|e] w1];
    try reflexivity.
  destruct (V7.for_cards site urljoin use_selenium num_jobs lim (job_cards soup) _ _ w1)
    as [[[a j|jobs]|e] w2]; try reflexivity.
  rewrite !limit_reached_at by lia. cbn [initial_session current_page].
  assert (E : (1 >=? m) = true) by lia. now rewrite E.
Qed.

Lemma negative_max_pages_is_one_page_witness :
  V7.scrape_jobs Sample.stale_third Sample.urljoin true None (Some (-3)) None 4
    Sample.search_url []
  = V7.scrape_jobs Sample.stale_third Sample.urljoin true None (Some 1) None 4
      Sample.search_url [].
Proof.
  apply (negative_max_pages_is_one_page Sample.stale_third Sample.urljoin true None (-3)
           None 4%nat Sample.search_url []).
  lia.
Defined.

(** ** Limits that cannot be read, and limits of the same age *)

(** X21.  A limit that is not empty and cannot be read, as ["1w"], is no limit
    in v3 and v4: every job is within it.  In v7 the jobs within it are
    those whose own age can be read. *)
Theorem unreadable_limit (posting_time limit : string) :
  limit <> "" ->
  _convert_to_days limit = Inf ->
  V3._is_within_time_limit posting_time (Some limit) = true
  /\ V4._is_within_time_limit posting_time (Some limit) = true
  /\ (V7._is_within_time_limit posting_time (Some limit) = true
      <-> is_finite (_convert_to_days posting_time)).
Proof.
  intros Hne Hinf.
  unfold V3._is_within_time_limit, V4._is_within_time_limit, V7._is_within_time_limit.
  destruct limit as [|c limit]; [congruence|]. cbn [Py.truthy_str negb]. rewrite Hinf.
  destruct (_convert_to_days posting_time); cbn; repeat split; auto; discriminate.
Qed.

Lemma unreadable_limit_witness :
  V4._is_within_time_limit "Posted 30d ago" (Some "1w") = true
  /\ (V7._is_within_time_limit "Posted 30d ago" (Some "1w") = true
      <-> is_finite (_convert_to_days "Posted 30d ago")).
Proof.
  destruct (unreadable_limit "Posted 30d ago" "1w" ltac:(discriminate) eq_refl)
    as (_ & H4 & H7).
  split; [exact H4 | exact H7].
Defined.

Lemma Qle_bool_compat (x y x' y' : Q) :
  x == x' -> y == y' -> Qle_bool x y = Qle_bool x' y'.
Proof.
  intros Hx Hy.
  destruct (Qle_bool x y) eqn:E1, (Qle_bool x' y') eqn:E2; try reflexivity.
  - apply Qle_bool_iff in E1. rewrite Hx, Hy in E1. apply Qle_bool_iff in E1. congruence.
  - apply Qle_bool_iff in E2. rewrite <- Hx, <- Hy in E2. apply Qle_bool_iff in E2.
    congruence.
Qed.

(** X22.  Two limits of the same age, as ["24h"] and ["1d"], decide alike on
    every job, in each of the three source files. *)
Theorem limits_of_equal_age (posting_time limit1 limit2 : string) :
  limit1 <> "" -> limit2 <> "" ->
  float_eq (_convert_to_days limit1) (_convert_to_days limit2) ->
  V7._is_within_time_limit posting_time (Some limit1)
  = V7._is_within_time_limit posting_time (Some limit2)
  /\ V4._is_within_time_limit posting_time (Some limit1)
     = V4._is_within_time_limit posting_time (Some limit2)
  /\ V3._is_within_time_limit posting_time (Some limit1)
     = V3._is_within_time_limit posting_time (Some limit2).
Proof.
  intros H1 H2 Heq.
  unfold V3._is_within_time_limit, V4._is_within_time_limit, V7._is_within_time_limit.
  destruct limit1 as [|c1 l1]; [congruence|]. destruct limit2 as [|c2 l2]; [congruence|].
  cbn [Py.truthy_str negb].
  destruct (_convert_to_days posting_time) as [x|],
           (_convert_to_days (String c1 l1)) as [y1|],
           (_convert_to_days (String c2 l2)) as [y2|]; cbn in *; try tauto.
  rewrite (Qle_bool_compat y1 x y2 x Heq (Qeq_refl x)).
  rewrite (Qle_bool_compat x y1 x y2 (Qeq_refl x) Heq). auto.
Qed.

Lemma limits_of_equal_age_witness :
  V7._is_within_time_limit "Posted 23h ago" (Some "1440m")
  = V7._is_within_time_limit "Posted 23h ago" (Some "1d").
Proof.
  apply (proj1 (limits_of_equal_age "Posted 23h ago" "1440m" "1d"
                  ltac:(discriminate) ltac:(discriminate) ltac:(reflexivity))).
Defined.

(** ** Reading the posting times of the site *)














(** ** What the session asks for *)

Section OnLinks.

Variable site : Site.
Variable urljoin : string -> string -> string.
Variable use_selenium : bool.
Variable num_jobs max_pages : option Z.
Variable lim : option string.
Variable search_url : string.





End OnLinks.


(** ** v4 without a title filter and v7 over [aiohttp] *)

Section V4V7.

Variable site : Site.
Variable urljoin : string -> string -> string.
Variable num_jobs max_pages : option Z.

Lemma aiohttp_document_from_site url max_retries attempts w soup w' :
  V7.aiohttp_attempts site url max_retries attempts w = (Val (Some soup), w') ->
  exists w0 status, site w0 url = Loaded status soup.
Proof.
  revert w. induction attempts as [|a attempts IH]; intros w; [discriminate|].
  cbn [V7.aiohttp_attempts]. unfold bind, request.
  destruct (site w url) as [status html|e] eqn:E.
  - destruct (status =? 200).
    + intros H. inversion H; subst. now exists w, status.
    + destruct (status =? 403); apply IH.
  - destruct (a <? max_retries - 1); [apply IH | discriminate].
Qed.

Lemma extract_job_details_v4_v7 job_url w :
  snd (V4.extract_job_details site job_url w)
  = snd (V7.extract_job_details site false job_url w)
  /\ match fst (V4.extract_job_details site job_url w),
           fst (V7.extract_job_details site false job_url w) with
     | Val (Some d4), Val (Some d7) => same_job d4 d7
     | Val None, Val None => True
     | _, _ => False
     end.
Proof.
  unfold V4.extract_job_details, V7.extract_job_details, try_except, bind, ret.
  rewrite fetch_page_v4_v7.
  destruct (V7.fetch_page site false job_url 3 w) as [[[soup|]|e] w']; cbn;
    repeat split; reflexivity.
Qed.

Lemma detail_attempts_v4_v7 job_url attempts w :
  snd (V4.detail_attempts site job_url attempts w)
  = snd (V7.detail_attempts site false job_url attempts w)
  /\ match fst (V4.detail_attempts site job_url attempts w),
           fst (V7.detail_attempts site false job_url attempts w) with
     | Val (Some d4), Val (Some d7) => same_job d4 d7
     | Val None, Val None => True
     | _, _ => False
     end.
Proof.
  revert w. induction attempts as [|a attempts IH]; intros w; [now split|].
  cbn [V4.detail_attempts V7.detail_attempts]. unfold bind, ret.
  destruct (extract_job_details_v4_v7 job_url w) as [E H].
  destruct (V4.extract_job_details site job_url w) as [[[d4|]|e4] w4],
           (V7.extract_job_details site false job_url w) as [[[d7|]|e7] w7];
    cbn [fst snd] in *; try contradiction; subst w7.
  - now split.
  - apply IH.
Qed.

Lemma process_card_v4_v7 card a4 a7 j w :
  card_title card <> None ->
  Forall2 same_job a4 a7 ->
  snd (V4.process_card site urljoin num_jobs None None card a4 j w)
  = snd (V7.process_card site urljoin false num_jobs None card a7 j w)
  /\ match fst (V4.process_card site urljoin num_jobs None None card a4 j w),
           fst (V7.process_card site urljoin false num_jobs None card a7 j w) with
     | Val (Continue b4 j4), Val (Continue b7 j7) => Forall2 same_job b4 b7 /\ j4 = j7
     | Val (Return r4), Val (Return r7) => Forall2 same_job r4 r7
     | _, _ => False
     end.
Proof.
  intros Ht Ha. unfold V4.process_card, V7.process_card.
  destruct (limit_reached num_jobs j); [now split|].
  unfold try_except, bind, ret.
  destruct (card_title card) as [title|]; [|congruence].
  cbn [V4.job_title_conditional_filter negb].
  destruct (card_link card) as [[href|]|]; try (now split).
  destruct (detail_attempts_v4_v7 (urljoin base_url href) (range 3) w) as [E H].
  destruct (V4.detail_attempts site (urljoin base_url href) (range 3) w)
    as [[[d4|]|e4] w4],
           (V7.detail_attempts site false (urljoin base_url href) (range 3) w)
    as [[[d7|]|e7] w7];
    cbn [fst snd] in *; try contradiction; subst w7.
  - cbn. split; [reflexivity|]. split; [|reflexivity].
    apply Forall2_app; [exact Ha | now constructor].
  - now split.
Qed.

Lemma for_cards_v4_v7 cards a4 a7 j w :
  Forall (fun card => card_title card <> None) cards ->
  Forall2 same_job a4 a7 ->
  snd (V4.for_cards site urljoin num_jobs None None cards a4 j w)
  = snd (V7.for_cards site urljoin false num_jobs None cards a7 j w)
  /\ match fst (V4.for_cards site urljoin num_jobs None None cards a4 j w),
           fst (V7.for_cards site urljoin false num_jobs None cards a7 j w) with
     | Val (Continue b4 j4), Val (Continue b7 j7) => Forall2 same_job b4 b7 /\ j4 = j7
     | Val (Return r4), Val (Return r7) => Forall2 same_job r4 r7
     | _, _ => False
     end.
Proof.
  intros Hc. revert a4 a7 j w. induction Hc as [|card cards Ht Hc IH]; intros a4 a7 j w Ha.
  - now split.
  - cbn [V4.for_cards V7.for_cards]. unfold bind, ret.
    destruct (process_card_v4_v7 card a4 a7 j w Ht Ha) as [E H].
    destruct (V4.process_card site urljoin num_jobs None None card a4 j w)
      as [[[b4 j4|r4]|e4] w4],
             (V7.process_card site urljoin false num_jobs None card a7 j w)
      as [[[b7 j7|r7]|e7] w7];
      cbn [fst snd] in *; try contradiction; subst w7.
    + destruct H as [H ->]. now apply IH.
    + now split.
Qed.

Lemma while_true_v4_v7 fuel s4 s7 w :
  titled site ->
  Forall2 same_job (all_jobs_data s4) (all_jobs_data s7) ->
  jobs_scraped s4 = jobs_scraped s7 ->
  current_page s4 = current_page s7 ->
  current_url s4 = current_url s7 ->
  match V4.while_true site urljoin num_jobs max_pages None None fuel s4 w,
        V7.while_true site urljoin false num_jobs max_pages None fuel s7 w with
  | (Val (Finished r4), w4), (Val (Finished r7), w7) =>
      w4 = w7 /\ Forall2 same_job r4 r7
  | (Val (Running t4), w4), (Val (Running t7), w7) =>
      w4 = w7 /\ Forall2 same_job (all_jobs_data t4) (all_jobs_data t7)
      /\ current_page t4 = current_page t7
  | (Exc e4, w4), (Exc e7, w7) => w4 = w7 /\ e4 = e7
  | _, _ => False
  end.
Proof.
  intros Hsite. revert s4 s7 w. induction fuel as [|fuel IH]; intros s4 s7 w Ha Hj Hp Hu.
  - cbn. auto.
  - rewrite while_true_step. cbn [V4.while_true]. unfold bind, ret.
    rewrite fetch_page_v4_v7, Hu.
    destruct (V7.fetch_page site false (current_url s7) 3 w) as [[[soup|]|e] w1] eqn:F;
      [| now split | now split].
    assert (Hc : Forall (fun card => card_title card <> None) (job_cards soup)).
    { unfold V7.fetch_page, V7._fetch_with_aiohttp in F.
      destruct (aiohttp_document_from_site _ _ _ _ _ _ F) as (w0 & status & Hs).
      exact (Hsite _ _ _ _ Hs). }
    rewrite Hj.
    destruct (for_cards_v4_v7 (job_cards soup) _ _ (jobs_scraped s7) w1 Hc Ha) as [E H].
    destruct (V4.for_cards site urljoin num_jobs None None (job_cards soup)
                (all_jobs_data s4) (jobs_scraped s7) w1) as [[[b4 j4|r4]|e4] w4],
             (V7.for_cards site urljoin false num_jobs None (job_cards soup)
                (all_jobs_data s7) (jobs_scraped s7) w1) as [[[b7 j7|r7]|e7] w7];
      cbn [fst snd] in *; try contradiction; subst w7; [|now split].
    destruct H as [H ->]. rewrite Hp.
    destruct (limit_reached max_pages (current_page s7)); [now split|].
    destruct (get_next_page_url urljoin soup (current_page s7)) as [u|]; [|now split].
    cbn [Py.truthy_opt_str negb]. destruct (Py.truthy_str u); [|now split].
    cbn [negb]. apply IH; cbn; congruence || assumption.
Qed.

End V4V7.

(** X25.  On a site whose cards all have a title element, v4 without a title
    filter and without a recency limit does what v7 does over [aiohttp]:
    the same requests in the same order, and the same jobs in the same
    order, v7 adding the location and the type to each record. *)
Theorem v7_aiohttp_does_what_v4_does
        (site : Site) (urljoin : string -> string -> string)
        (num_jobs max_pages : option Z)
        (fuel : nat) (search_url : string) (w : World) :
  titled site ->
  requests (V4.scrape_jobs site urljoin num_jobs max_pages None None fuel search_url w)
  = requests (V7.scrape_jobs site urljoin false num_jobs max_pages None fuel search_url w)
  /\ match fst (V4.scrape_jobs site urljoin num_jobs max_pages None None fuel search_url w),
           fst (V7.scrape_jobs site urljoin false num_jobs max_pages None fuel search_url w)
     with
     | Val (Finished r4), Val (Finished r7) => Forall2 same_job r4 r7
     | Val (Running t4), Val (Running t7) =>
         Forall2 same_job (all_jobs_data t4) (all_jobs_data t7)
     | _, _ => False
     end.
Proof.
  intros Hsite. rewrite scrape_jobs_unfold.
  unfold V4.scrape_jobs, try_except, ret, requests.
  pose proof (while_true_v4_v7 site urljoin num_jobs max_pages fuel
                {| all_jobs_data := []; jobs_scraped := 0; current_page := 1;
                   current_url := search_url |}
                (initial_session search_url) w Hsite (Forall2_nil _)
                eq_refl eq_refl eq_refl) as H.
  destruct (V4.while_true site urljoin num_jobs max_pages None None fuel _ w)
    as [[[r4|t4]|e4] w4],
           (V7.while_true site urljoin false num_jobs max_pages None fuel _ w)
    as [[[r7|t7]|e7] w7]; cbn [fst snd]; try contradiction.
  - now destruct H.
  - destruct H as (H1 & H2 & _). now split.
  - destruct H as [H _]. split; [exact H | constructor].
Qed.

Lemma v7_aiohttp_does_what_v4_does_witness :
  requests (V4.scrape_jobs Sample.five_cards Sample.urljoin (Some 2) None None None 3
              Sample.search_url [])
  = requests (V7.scrape_jobs Sample.five_cards Sample.urljoin false (Some 2) None None 3
                Sample.search_url []).
Proof.
  assert (T : titled Sample.five_cards).
  { intros w url status soup H. unfold Sample.five_cards, Sample.static in H.
    cbn [Sample.lookup] in H.
    repeat match type of H with
           | (if ?c then _ else _) = _ => destruct c
           end;
      inversion H; subst; repeat constructor; discriminate. }
  exact (proj1 (v7_aiohttp_does_what_v4_does Sample.five_cards Sample.urljoin (Some 2) None
                  3%nat Sample.search_url [] T)).
Defined.
